(** * Supervisor-agent workflow bot: a shallow embedding and its properties

    The development follows the TypeScript sources:
    - [workflows/base-supervisor-workflow.ts]: the run state and its reducers,
      the routing options, the supervisor and agent nodes, the graph that
      [buildWorkflow] wires and the [execute] entry point;
    - [services/github/GitHubService.ts]: [verifyWebhookSignature] and
      [isCommentFromBot];
    - the webhook service: [verifySignature] and [handleIssueCommentEvent].

    JavaScript strings are modelled as byte strings ([string] of the Standard
    Library); case conversion is the ASCII one, which is what the identifiers
    of the program (agent names, GitHub logins) use. *)

From Stdlib Require Import String Ascii List Arith Lia Bool.
From stdpp Require Import base option list strings gmap pretty.
Import ListNotations.

Local Open Scope string_scope.

(** ** JavaScript string primitives used by the program *)

Module JsString.

(** [c.toUpperCase()] on one ASCII character. *)
Definition upper_char (c : ascii) : ascii :=
  let n := nat_of_ascii c in
  if ((97 <=? n) && (n <=? 122))%nat then ascii_of_nat (n - 32) else c.

(** [c.toLowerCase()] on one ASCII character. *)
Definition lower_char (c : ascii) : ascii :=
  let n := nat_of_ascii c in
  if ((65 <=? n) && (n <=? 90))%nat then ascii_of_nat (n + 32) else c.

Fixpoint toUpperCase (s : string) : string :=
  match s with
  | EmptyString => EmptyString
  | String c r => String (upper_char c) (toUpperCase r)
  end.

Fixpoint toLowerCase (s : string) : string :=
  match s with
  | EmptyString => EmptyString
  | String c r => String (lower_char c) (toLowerCase r)
  end.

(** [s.charAt(0)]: the first character as a string, or the empty string. *)
Definition charAt0 (s : string) : string :=
  match s with
  | EmptyString => EmptyString
  | String c _ => String c EmptyString
  end.

(** [s.slice(1)]. *)
Definition slice1 (s : string) : string :=
  match s with
  | EmptyString => EmptyString
  | String _ r => r
  end.

(** [s.split(sep)] for a one-character separator: never the empty list,
    [''.split('_')] is [['']]. *)
Fixpoint split (sep : ascii) (s : string) : list string :=
  match s with
  | EmptyString => [EmptyString]
  | String c r =>
      if Ascii.eqb c sep then EmptyString :: split sep r
      else match split sep r with
           | w :: ws => String c w :: ws
           | [] => [String c EmptyString]
           end
  end.

(** [words.join(sep)]. *)
Fixpoint join (sep : string) (ws : list string) : string :=
  match ws with
  | [] => EmptyString
  | [w] => w
  | w :: rest => w ++ sep ++ join sep rest
  end.

(** [s.includes(pat)]. *)
Fixpoint includes (s pat : string) : bool :=
  if String.prefix pat s then true
  else match s with
       | EmptyString => false
       | String _ r => includes r pat
       end.

(** JavaScript truthiness of a string: only the empty string is falsy. *)
Definition truthy (s : string) : bool :=
  match s with EmptyString => false | _ => true end.

End JsString.

(** ** Errors and results *)

(** What a JavaScript computation can throw, as far as the program
    distinguishes it. [GraphRecursionError] is the graph engine's error for
    a run that has used up its [recursionLimit] steps (the specification
    calls it IterationLimitExceeded); [NodeError] is an error thrown by the
    decision oracle or by an agent's reasoning session or tools; the two
    others are the language's own. *)
Inductive Exn : Type :=
  | GraphRecursionError
  | NodeError (msg : string)
  | TypeError (msg : string)
  | RangeError (msg : string)
  | Error (msg : string).

Inductive result (A : Type) : Type :=
  | Ok (a : A)
  | Throw (e : Exn).
Arguments Ok {A} a.
Arguments Throw {A} e.

#[global] Instance result_ret : MRet result := fun A a => Ok a.

#[global] Instance result_bind : MBind result := fun A B k r =>
  match r with
  | Ok a => k a
  | Throw e => Throw e
  end.

(** [try { body } catch (error) { handler }]. *)
Definition try_catch {A} (body : result A) (handler : Exn -> result A) : result A :=
  match body with
  | Ok a => Ok a
  | Throw e => handler e
  end.

(** ** The supervisor workflow (base-supervisor-workflow.ts) *)

Module Workflow.
Import JsString.

(** The engine's terminal marker and entry marker. *)
Definition END : string := "__end__".
Definition START : string := "__start__".

(** [message.content]: text or a structured payload (kept serialised). *)
Inductive Content : Type :=
  | Text (s : string)
  | Structured (json : string).

(** The message classes; [Plain] is a value that is no message object,
    which the history holds when an update supplies plain data under
    [messages]. *)
Inductive MessageKind : Type := Human | AI | System | Tool | Plain.

Record BaseMessage : Type := mkMessage {
  kind : MessageKind;
  content : Content;
  name : option string
}.

(** [new HumanMessage({content, name})]. *)
Definition HumanMessage (c : Content) (n : option string) : BaseMessage :=
  mkMessage Human c n.

Record AgentConfig : Type := mkAgentConfig {
  agent_name : string;
  tools : list string;
  agent_systemPrompt : string
}.

Record WorkflowConfig : Type := mkWorkflowConfig {
  members : list string;
  systemPrompt : string;
  routingDescription : string;
  humanPrompt : string;
  model : string;
  maxRetries : option nat;
  recursionLimit : option nat
}.

(** [formatAgentName]:
    [name.split('_').map(w => w.charAt(0).toUpperCase() + w.slice(1)).join('_')]. *)
Definition capitalize (word : string) : string :=
  toUpperCase (charAt0 word) ++ slice1 word.

Definition formatAgentName (name : string) : string :=
  join "_" (map capitalize (split "_" name)).

(** The transformation as the specification words it: scanning the name,
    a character that opens an underscore-separated word is upper-cased,
    every other character (underscores included) is kept. *)
Fixpoint title_case_from (word_start : bool) (s : string) : string :=
  match s with
  | EmptyString => EmptyString
  | String c r =>
      if Ascii.eqb c "_" then String c (title_case_from true r)
      else String (if word_start then upper_char c else c)
                  (title_case_from false r)
  end.

Definition title_case_spec (s : string) : string := title_case_from true s.

(** *** The state model ([initializeBaseState]) *)

Record RunState : Type := mkRunState {
  messages : list BaseMessage;
  next : string
}.

(** [messages]: [reducer: (x, y) => x.concat(y)], [default: () => []]. *)
Definition messages_reducer (x y : list BaseMessage) : list BaseMessage := x ++ y.
Definition messages_default : list BaseMessage := [].

(** [next]: [reducer: (x, y) => y ?? x ?? END], [default: () => END];
    [None] stands for [null] or [undefined]. *)
Definition next_reducer (x y : option string) : string :=
  match y with
  | Some v => v
  | None => match x with Some v => v | None => END end
  end.
Definition next_default : string := END.

Definition default_state : RunState := mkRunState messages_default next_default.

(** The partial update a node returns: a key that is absent (or, for
    [next], null) is [None]. *)
Record Update : Type := mkUpdate {
  upd_messages : option (list BaseMessage);
  upd_next : option string
}.

(** The engine calls a field's reducer when a node's update touches the
    field and leaves the field alone otherwise; a node that returns
    [undefined] updates nothing. *)
Definition apply_update (st : RunState) (u : option Update) : RunState :=
  match u with
  | None => st
  | Some u =>
      mkRunState
        (match upd_messages u with
         | Some y => messages_reducer (messages st) y
         | None => messages st
         end)
        (next_reducer (Some (next st)) (upd_next u))
  end.

(** *** Routing ([setupRouting]) *)

(** [this.options = [END, ...this.config.members]]. *)
Definition options (config : WorkflowConfig) : list string :=
  END :: members config.

Definition legal (config : WorkflowConfig) (d : string) : bool :=
  bool_decide (d ∈ options config).

(** The reply of the model bound to the [route] tool: the arguments of each
    tool call it makes. The tool's schema has the single key [next], but the
    reply is not validated against the schema, and of the arguments every
    key that names a field of the state counts: [next] and [messages]
    ([arg_messages] holds the items given under [messages], if any; a value
    that is no array is one item, as [concat] takes it). *)
Record ToolCall : Type := mkToolCall {
  tc_name : string;
  arg_next : option string;
  arg_messages : option (list BaseMessage)
}.

Record AIMessageChunk : Type := mkChunk {
  tool_calls : list ToolCall
}.

(** Last stage of [supervisorChain]: [x => x?.tool_calls?.[0]?.args], which
    the graph takes as the supervisor node's update: the whole arguments
    object of the first tool call. *)
Definition first_call_args (x : AIMessageChunk) : option Update :=
  match tool_calls x with
  | [] => None
  | call :: _ => Some (mkUpdate (arg_messages call) (arg_next call))
  end.

(** *** The supervisor's prompt ([setupPrompt], [prompt.partial]) *)

(** [ChatPromptTemplate] is a library class (@langchain/core). The texts
    [systemPrompt] and [humanPrompt] are f-string templates: [{{] and [}}]
    stand for a brace, [{name}] for the variable [name], the name running
    up to the next closing brace; a brace left open and a closing brace
    alone are errors. [variables_from] lists the variables of a template,
    [inside] holding the name being read. *)
Fixpoint variables_from (inside : option string) (template : string)
    : result (list string) :=
  match inside, template with
  | Some _, EmptyString => Throw (Error "Unclosed '{' in template.")
  | Some name, String c r =>
      if Ascii.eqb c "}" then
        vs ← variables_from None r; Ok (name :: vs)
      else variables_from (Some (name ++ String c EmptyString)) r
  | None, EmptyString => Ok []
  | None, String c r =>
      if Ascii.eqb c "{" then
        match r with
        | String c' r' =>
            if Ascii.eqb c' "{" then variables_from None r'
            else variables_from (Some EmptyString) r
        | EmptyString => variables_from (Some EmptyString) r
        end
      else if Ascii.eqb c "}" then
        match r with
        | String c' r' =>
            if Ascii.eqb c' "}" then variables_from None r'
            else Throw (Error "Single '}' in template.")
        | EmptyString => Throw (Error "Single '}' in template.")
        end
      else variables_from None r
  end.

Definition template_variables (template : string) : result (list string) :=
  variables_from None template.

(** [setupPrompt]:
    [ChatPromptTemplate.fromMessages([['system', systemPrompt],
       new MessagesPlaceholder('messages'), ['human', humanPrompt]])];
    the result is kept as the variables its messages use. *)
Definition setupPrompt (config : WorkflowConfig) : result (list string) :=
  sys ← template_variables (systemPrompt config);
  hum ← template_variables (humanPrompt config);
  Ok (sys ++ ["messages"] ++ hum)%list.

Definition uses (used : list string) (v : string) : bool :=
  existsb (String.eqb v) used.

(** [this.prompt.partial({options, members})] at the head of [execute]:
    the library refuses to fill in a variable that no message of the prompt
    uses. (A template that does not parse is refused already by
    [setupPrompt]; see [constructor].) *)
Definition prompt_partial (config : WorkflowConfig) : result unit :=
  used ← setupPrompt config;
  match List.filter (fun v => negb (uses used v)) ["options"; "members"] with
  | [] => Ok tt
  | unused =>
      Throw (Error ("Input variables `" ++ join "," unused
                    ++ "` are not used in any of the prompt messages."))
  end.

(** [config.recursionLimit || 100]: unset and [0] both give 100. *)
Definition ceiling (config : WorkflowConfig) : nat :=
  match recursionLimit config with
  | Some (S n) => S n
  | _ => 100
  end.

(** [`${owner}/${repo}#${prNumber}`]. *)
Definition thread_id (owner repo : string) (prNumber : nat) : string :=
  owner ++ "/" ++ repo ++ "#" ++ pretty prNumber.

(** *** The abstract class and its collaborators *)

(** What a subclass of [BaseSupervisorWorkflow<TContext>] supplies: the
    configuration passed to [super] and the abstract methods. *)
Record Subclass (TContext : Type) : Type := mkSubclass {
  config : WorkflowConfig;
  getAgentConfigs : list AgentConfig;
  createInitialMessage : string -> string -> nat -> option TContext -> string
}.
Arguments config {TContext} _.
Arguments getAgentConfigs {TContext} _.
Arguments createInitialMessage {TContext} _ _ _ _ _.

(** The external capabilities a run calls. [decide n st] is the reply of
    the model bound to the [route] tool on the prompt rendered from [st],
    at the supervisor's [n]-th invocation of the run (counting from 0);
    [session a st] is [result.messages] of the reasoning session
    [createReactAgent({tools, prompt}).invoke(st)] of agent [a]. Either can
    throw. *)
Record Collaborators : Type := mkCollaborators {
  decide : nat -> RunState -> result AIMessageChunk;
  session : AgentConfig -> RunState -> result (list BaseMessage)
}.

Inductive Task : Type :=
  | RunSupervisor
  | RunAgent (a : AgentConfig).

(** The engine's loop: the committed run state, the number of node
    executions started so far, how many of them were the supervisor, and
    the node triggered for the next step, if any. *)
Record Loop : Type := mkLoop {
  state : RunState;
  steps : nat;
  supervisor_calls : nat;
  pending : option Task
}.

Inductive Outcome : Type :=
  | Finished (l : Loop)
  | Aborted (e : Exn) (l : Loop).

Definition loop_of (o : Outcome) : Loop :=
  match o with Finished l => l | Aborted _ l => l end.

(** The workflow object's own fields: [agentState] (built on first use),
    and the [store] and [checkpointer] created by the constructor. The
    checkpointer keeps, per thread identifier, the state last committed. *)
Record Instance : Type := mkInstance {
  agentState : bool;
  store : gmap string string;
  checkpointer : gmap string RunState
}.

(** The fields as the constructor leaves them:
    [new InMemoryStore()], [new MemorySaver()]. *)
Definition new_instance : Instance := mkInstance false ∅ ∅.

(** [constructor]: the fields, [setupRouting] and [setupPrompt]; there is
    no object when the prompt's templates do not parse. *)
Definition constructor (config : WorkflowConfig) : result Instance :=
  _ ← setupPrompt config;
  Ok new_instance.

Section BaseSupervisorWorkflow.
Context {TContext : Type}.
Variable wf : Subclass TContext.
Variable env : Collaborators.

(** *** Nodes and edges ([buildWorkflow]) *)

(** The graph engine is a library the program calls (the [StateGraph] of
    [@langchain/langgraph]). [valid_graph], [route], [run_loop] and
    [invoke] state what it does with the graph that [buildWorkflow] builds:
    nodes run one at a time, a node's update goes through the reducers,
    the edges name the node to run next, and [recursionLimit] bounds the
    number of steps. *)

Definition agent_names : list string := map agent_name (getAgentConfigs wf).

(** [workflow.addNode(agentConfig.name, agentNode)]. *)
Definition find_agent (n : string) : option AgentConfig :=
  find (fun a => String.eqb (agent_name a) n) (getAgentConfigs wf).

(** [addNode] refuses a name used twice and the reserved names;
    compiling refuses an edge [member -> supervisor] whose source is not
    a node. *)
Definition valid_graph : bool :=
  bool_decide (NoDup ("supervisor" :: agent_names))
  && bool_decide (END ∉ agent_names)
  && bool_decide (START ∉ agent_names)
  && bool_decide (Forall (fun m => m ∈ agent_names) (members (config wf))).

(** The agent node: runs the session and returns one message, named
    after the agent, holding the content of the session's last message.
    Reading [.content] of [undefined] (an empty session result) is a
    [TypeError]. *)
Definition agentNode (a : AgentConfig) (st : RunState) : result Update :=
  msgs ← session env a st;
  match last msgs with
  | None => Throw (TypeError "Cannot read properties of undefined")
  | Some lastMessage =>
      Ok (mkUpdate
            (Some [HumanMessage (content lastMessage)
                     (Some (formatAgentName (agent_name a)))])
            None)
  end.

(** The supervisor node: the chain's output is the update. *)
Definition supervisorNode (n : nat) (st : RunState) : result (option Update) :=
  reply ← decide env n st;
  Ok (first_call_args reply).

(** [addConditionalEdges('supervisor', x => x.next)], without a path map:
    the engine rejects a falsy destination, stops on [END], triggers the
    node of that name if the graph has one, and otherwise drops the
    write (no node is triggered). *)
Definition route (dest : string) : result (option Task) :=
  if String.eqb dest "" then
    Throw (Error "Branch condition returned unknown or null destination")
  else if String.eqb dest END then Ok None
  else if String.eqb dest "supervisor" then Ok (Some RunSupervisor)
  else Ok (RunAgent <$> find_agent dest).

(** [addEdge(member, 'supervisor')] for every member. *)
Definition after_agent (a : AgentConfig) : option Task :=
  if bool_decide (agent_name a ∈ members (config wf))
  then Some RunSupervisor else None.

(** *** The engine's execution loop ([graph.invoke]) *)

Definition started (l : Loop) (t : Task) : Loop :=
  mkLoop (state l) (S (steps l))
    (match t with
     | RunSupervisor => S (supervisor_calls l)
     | RunAgent _ => supervisor_calls l
     end)
    (Some t).

(** One step: run the triggered node on the committed state, apply its
    update through the reducers, follow the edges. The conditional edge
    reads the state with the supervisor's own write applied. *)
Definition tick (l : Loop) (t : Task) : result Loop :=
  let l0 := started l t in
  match t with
  | RunSupervisor =>
      upd ← supervisorNode (supervisor_calls l) (state l);
      let st' := apply_update (state l) upd in
      nxt ← route (next st');
      Ok (mkLoop st' (steps l0) (supervisor_calls l0) nxt)
  | RunAgent a =>
      upd ← agentNode a (state l);
      Ok (mkLoop (apply_update (state l) (Some upd))
            (steps l0) (supervisor_calls l0) (after_agent a))
  end.

(** At most [fuel] steps. The engine tests the step count first: once
    [fuel] nodes have run it throws [GraphRecursionError], whether a node
    is still triggered or not, so that a run ends well only if it ends
    before its last allowed step. Otherwise, with no node triggered the
    run is finished; an error thrown by a node aborts the run. *)
Fixpoint run_loop (fuel : nat) (l : Loop) : Outcome :=
  match fuel with
  | 0 => Aborted GraphRecursionError l
  | S fuel' =>
      match pending l with
      | None => Finished l
      | Some t =>
          match tick l t with
          | Ok l' => run_loop fuel' l'
          | Throw e => Aborted e (started l t)
          end
      end
  end.

(** The states an execution passes through: [reaches l l'] when the
    loop gets from [l] to [l'] by steps that succeed. *)
Inductive reaches : Loop -> Loop -> Prop :=
  | reaches_here l : reaches l l
  | reaches_tick l t l' l'' :
      pending l = Some t -> tick l t = Ok l' -> reaches l' l'' ->
      reaches l l''.

(** An oracle that names a member at every call, with reasoning sessions
    that always answer: the collaborators of a run that never selects the
    terminal marker. *)
Definition never_terminal : Prop :=
  (forall n st, exists call rest d,
      decide env n st = Ok (mkChunk (call :: rest))
      /\ arg_next call = Some d
      /\ d ∈ members (config wf)
      /\ d <> "")
  /\ (forall a st, exists msgs m,
         session env a st = Ok msgs /\ last msgs = Some m).

Definition routed (l : Loop) : Prop :=
  pending l = Some RunSupervisor
  \/ exists a, pending l = Some (RunAgent a)
               /\ agent_name a ∈ members (config wf).

(** Every agent node is a declared member, as in the two concrete
    workflows. *)
Definition agents_are_members : Prop :=
  Forall (fun a => agent_name a ∈ members (config wf)) (getAgentConfigs wf).

(** What an agent node keeps of a session: the content of its last
    message. *)
Definition answer (a : AgentConfig) (st : RunState) : result (option Content) :=
  msgs ← session env a st;
  Ok (content <$> last msgs).

(** Stub collaborators: the oracle's reply depends only on how many times
    it has been asked and always names a destination, and an agent's answer
    does not depend on the history it is given. *)
Definition stub_collaborators : Prop :=
  (forall n st st', decide env n st = decide env n st')
  /\ (forall n st reply, decide env n st = Ok reply ->
        exists call rest d,
          tool_calls reply = call :: rest /\ arg_next call = Some d)
  /\ (forall a st st', answer a st = answer a st').

(** Two points of two runs that are alike in all that stub collaborators
    can tell apart. *)
Definition alike (l1 l2 : Loop) : Prop :=
  steps l1 = steps l2
  /\ supervisor_calls l1 = supervisor_calls l2
  /\ pending l1 = pending l2
  /\ last (messages (state l1)) = last (messages (state l2))
  /\ (pending l1 = Some RunSupervisor \/ next (state l1) = next (state l2)).

(** What [execute] makes of an outcome. *)
Definition returned (o : Outcome) : result (option BaseMessage) :=
  match o with
  | Finished l => Ok (last (messages (state l)))
  | Aborted e _ => Throw e
  end.

(** [graph.invoke(input, {recursionLimit, configurable: {thread_id}})] on
    a graph compiled with the checkpointer [cp]: the input is applied,
    through the reducers, to the state saved under the thread (the
    defaults when there is none), the run starts at the supervisor
    ([addEdge(START, 'supervisor')]), and the state it reaches is saved
    under the thread. *)
Definition invoke (cp : gmap string RunState) (input : Update)
    (limit : nat) (thread : string) : Outcome * gmap string RunState :=
  let saved := default default_state (cp !! thread) in
  let st0 := apply_update saved (Some input) in
  let out := run_loop limit (mkLoop st0 0 0 (Some RunSupervisor)) in
  (out, <[thread := state (loop_of out)]> cp).

(** *** [execute] *)

(** [initialState = { messages: [new HumanMessage({content: initialMessage})] }].
    A context, when given, only adds the subclass's own state fields
    ([getContextState]), which play no part in routing or in [messages]. *)
Definition initialState (owner repo : string) (prNumber : nat)
    (context : option TContext) : Update :=
  mkUpdate
    (Some [HumanMessage
             (Text (createInitialMessage wf owner repo prNumber context)) None])
    None.

(** The state model is initialised, the prompt is given its [options]
    and [members], and the graph is built and compiled, with the object's
    [store] and [checkpointer]; the result is the last message of the
    final state. The [catch] logs and rethrows: when the prompt or the
    graph is refused, no node has run and nothing is saved. *)
Definition execute (this : Instance) (owner repo : string) (prNumber : nat)
    (context : option TContext) : result (option BaseMessage) * Instance :=
  let initialized := mkInstance true (store this) (checkpointer this) in
  match prompt_partial (config wf) with
  | Throw e => (Throw e, initialized)
  | Ok _ =>
      if valid_graph then
        let '(out, cp) :=
          invoke (checkpointer this) (initialState owner repo prNumber context)
            (ceiling (config wf)) (thread_id owner repo prNumber) in
        (returned out, mkInstance true (store this) cp)
      else (Throw (Error "Invalid graph"), initialized)
  end.

End BaseSupervisorWorkflow.

(** *** The two concrete workflows *)

Definition agent (n : string) (ts : list string) : AgentConfig :=
  mkAgentConfig n ts ("prompt:" ++ n).

Definition pr_tools : list string :=
  ["get_pull_request"; "get_pull_request_files"; "get_file_content";
   "get_pull_request_diff"].

(** What [PromptLoader.loadWorkflowPrompts] gives a constructor: the
    texts of the workflow's prompt file. *)
Record WorkflowPrompts : Type := mkWorkflowPrompts {
  loaded_systemPrompt : string;
  loaded_routingDescription : string;
  loaded_humanPrompt : string
}.

(** [InitialCodeReviewService] (code-reviewer-worflow.ts). *)
Definition InitialCodeReviewService (workflowPrompts : WorkflowPrompts)
    (createInitialMessage : string -> string -> nat -> option unit -> string)
    : Subclass unit :=
  mkSubclass unit
    (mkWorkflowConfig
       ["summarizer"; "security_agent"; "performance_agent";
        "code_quality_agent"; "reviewer"]
       (loaded_systemPrompt workflowPrompts)
       (loaded_routingDescription workflowPrompts)
       (loaded_humanPrompt workflowPrompts)
       "claude-sonnet-4-20250514" (Some 3) (Some 80))
    [agent "summarizer" pr_tools; agent "security_agent" [];
     agent "performance_agent" []; agent "code_quality_agent" [];
     agent "reviewer" []]
    createInitialMessage.

(** [InteractivePRAssistant] (interactive-pr-assistant-workflow.ts). *)
Definition InteractivePRAssistant {TContext : Type}
    (workflowPrompts : WorkflowPrompts)
    (createInitialMessage : string -> string -> nat -> option TContext -> string)
    : Subclass TContext :=
  mkSubclass TContext
    (mkWorkflowConfig
       ["summarizer"; "security_agent"; "performance_agent";
        "code_quality_agent"; "responder"]
       (loaded_systemPrompt workflowPrompts)
       (loaded_routingDescription workflowPrompts)
       (loaded_humanPrompt workflowPrompts)
       "claude-sonnet-4-20250514" None (Some 50))
    [agent "summarizer" pr_tools; agent "security_agent" [];
     agent "performance_agent" []; agent "code_quality_agent" [];
     agent "responder" []]
    createInitialMessage.

End Workflow.

(** ** The GitHub service (services/github/GitHubService.ts) *)

Module GitHubService.
Import JsString.

Record GitHubService : Type := mkGitHubService {
  webhookSecret : string;
  botUsername : option string
}.

(** [crypto.timingSafeEqual(Buffer.from(a, 'utf8'), Buffer.from(b, 'utf8'))]:
    throws when the two buffers differ in byte length. *)
Definition timingSafeEqual (a b : string) : result bool :=
  if Nat.eqb (String.length a) (String.length b) then Ok (String.eqb a b)
  else Throw (RangeError "Input buffers must have the same byte length").

Section Crypto.
(** [crypto.createHmac('sha256', secret).update(payload, 'utf8').digest('hex')],
    which may itself throw. *)
Variable hmac_sha256_hex : string -> string -> result string.

Definition verifyWebhookSignature (this : GitHubService)
    (payload signature : string) : result bool :=
  try_catch
    (digest ← hmac_sha256_hex (webhookSecret this) payload;
     let expectedSignature := "sha256=" ++ digest in
     timingSafeEqual signature expectedSignature)
    (fun _ => Ok false).
End Crypto.

Definition isCommentFromBot (this : GitHubService) (commentUser : string) : bool :=
  if match botUsername this with
     | Some b => truthy b && String.eqb commentUser b
     | None => false
     end
  then true
  else if includes commentUser "[bot]"
          || includes commentUser "bot"
          || includes (toLowerCase commentUser) "github-actions"
  then true
  else false.

End GitHubService.

(** ** The webhook service *)

Module WebhookService.
Import JsString GitHubService.

Record User : Type := mkUser { login : string }.

Record Comment : Type := mkComment {
  user : User;
  comment_body : string
}.

Record Issue : Type := mkIssue {
  issue_number : nat;
  pull_request : bool
}.

Record Repository : Type := mkRepository {
  repo_name : string;
  owner : User
}.

Record WebhookEvent : Type := mkEvent {
  action : string;
  issue : option Issue;
  comment : option Comment;
  repository : option Repository
}.

(** What a handler does to the outside: running the assistant workflow
    ([assistantService.handleBotCommand]) and posting a comment
    ([githubService.createPRComment]). *)
Inductive Effect : Type :=
  | HandleBotCommand (owner repo : string) (prNumber : nat) (command user : string)
  | CreatePRComment (owner repo : string) (prNumber : nat) (body : string).

Record Request (Body : Type) : Type := mkRequest {
  headers : gmap string string;
  body : Body
}.
Arguments headers {Body} _.
Arguments body {Body} _.

(** [currentServices]: undefined until [ensureInitialized] succeeds. *)
Record WebhookService : Type := mkWebhookService {
  currentServices : option GitHubService
}.

Section Service.
Context {Body : Type}.
Variable stringify : Body -> string.
Variable hmac_sha256_hex : string -> string -> result string.
(** [githubService.isBotMentioned] and [githubService.extractCommand]
    (regular-expression matching on the comment body), and the last
    message's content returned by the assistant workflow. *)
Variable isBotMentioned : string -> bool.
Variable extractCommand : string -> option string.
Variable handleBotCommand :
  string -> string -> nat -> string -> string -> result string.

Definition verifySignature (this : WebhookService) (req : Request Body)
    : result bool :=
  match currentServices this with
  | None => Throw (Error "Services not initialized")
  | Some githubService =>
      match headers req !! "x-hub-signature-256" with
      | None => Ok true
      | Some signature =>
          if negb (truthy signature) then Ok true
          else verifyWebhookSignature hmac_sha256_hex githubService
                 (stringify (body req)) signature
      end
  end.

(** [handleBotMention]: errors of the workflow are logged, not rethrown
    (the greeting is kept without its emoji). *)
Definition handleBotMention (owner repo : string) (prNumber : nat)
    (commentBody user : string) : list Effect :=
  match extractCommand commentBody with
  | None =>
      [CreatePRComment owner repo prNumber
         ("Hi @" ++ user ++ "! I'm here to help with code reviews. Ask me anything about this PR!")]
  | Some userMessage =>
      HandleBotCommand owner repo prNumber userMessage user ::
      match handleBotCommand owner repo prNumber userMessage user with
      | Ok reply =>
          if truthy reply then [CreatePRComment owner repo prNumber reply] else []
      | Throw _ => []
      end
  end.

Definition handleIssueCommentEvent (githubService : GitHubService)
    (event : WebhookEvent) : list Effect :=
  match comment event, repository event, issue event with
  | Some comment, Some repository, Some issue =>
      if negb (pull_request issue) then []
      else
        let commentUser := login (user comment) in
        if isCommentFromBot githubService commentUser then []
        else if isBotMentioned (comment_body comment) then
          handleBotMention (login (owner repository)) (repo_name repository)
            (issue_number issue) (comment_body comment) commentUser
        else []
  | _, _, _ => []
  end.

End Service.

End WebhookService.

(** ** Stub collaborators and small workflows for the scenarios *)

Module Scenario.
Import Workflow.

(** A stub decision oracle that replays a fixed sequence of destinations,
    one [route] call per invocation. *)
Definition stub_oracle (seq : list string) (n : nat) (st : RunState)
    : result AIMessageChunk :=
  match seq !! n with
  | Some d => Ok (mkChunk [mkToolCall "route" (Some d) None])
  | None => Throw (NodeError "no reply")
  end.

(** A reasoning session that answers with its agent's name and the number
    of messages it was given, after the history. *)
Definition echo_session (a : AgentConfig) (st : RunState)
    : result (list BaseMessage) :=
  Ok (messages st ++
      [mkMessage AI
         (Text (agent_name a ++ ":" ++ pretty (length (messages st)))) None])%list.

Definition stub_env (seq : list string) : Collaborators :=
  mkCollaborators (stub_oracle seq) echo_session.

(** A decision oracle that names the same destination at every call. *)
Definition constant_oracle (d : string) (n : nat) (st : RunState)
    : result AIMessageChunk :=
  Ok (mkChunk [mkToolCall "route" (Some d) None]).

Definition constant_env (d : string) : Collaborators :=
  mkCollaborators (constant_oracle d) echo_session.

Definition pr_message (owner repo : string) (prNumber : nat)
    (context : option unit) : string :=
  "Review " ++ thread_id owner repo prNumber.

(** A workflow with the given members, one agent per member, and a prompt
    that uses the two variables [execute] fills in. *)
Definition workflow_of (ms : list string) (limit : option nat) : Subclass unit :=
  mkSubclass unit
    (mkWorkflowConfig ms
       "You supervise the workers {members}."
       "routing"
       "Who should act next? Select one of: {options}"
       "model" None limit)
    (map (fun m => agent m []) ms)
    pr_message.

Definition two_agents : Subclass unit := workflow_of ["agent1"; "agent2"] None.

(** The same workflow with a prompt that names the members but has no
    place for the options. *)
Definition no_options : Subclass unit :=
  mkSubclass unit
    (mkWorkflowConfig ["agent1"; "agent2"]
       "You supervise the workers {members}." "routing" "Who should act next?"
       "model" None None)
    (map (fun m => agent m []) ["agent1"; "agent2"])
    pr_message.

Definition one_agent : Subclass unit := workflow_of ["agent1"] None.

End Scenario.

(** ** What a run adds to the history *)

Module RunFacts.
Import Workflow.

Section Facts.
Context {TContext : Type}.
Variable wf : Subclass TContext.

(** A message is authored by an agent of the workflow: a human-kind message
    under the formatted name of a declared agent. *)
Definition authored (m : BaseMessage) : Prop :=
  kind m = Human
  /\ exists a, a ∈ getAgentConfigs wf /\ name m = Some (formatAgentName (agent_name a)).

(** The node to run is the supervisor or a declared agent. *)
Definition declared (l : Loop) : Prop :=
  forall a, pending l = Some (RunAgent a) -> a ∈ getAgentConfigs wf.

End Facts.

(** What the oracle's reply at the point [l] carries under [messages] in
    its first tool call: the messages a supervisor step appends. *)
Definition reply_messages (env : Collaborators) (l : Loop) : list BaseMessage :=
  match decide env (supervisor_calls l) (state l) with
  | Ok reply =>
      match tool_calls reply with
      | call :: _ => default [] (arg_messages call)
      | [] => []
      end
  | Throw _ => []
  end.

(** An oracle that keeps to routing: no reply of it carries anything under
    [messages] in its first tool call. *)
Definition routes_only (env : Collaborators) : Prop :=
  forall n st reply call rest,
    decide env n st = Ok reply -> tool_calls reply = call :: rest ->
    arg_messages call = None.

End RunFacts.

(** ** Configuration (services/config) *)

Module Configuration.
Import JsString.

(** The variables of [process.env] the program reads. *)
Record ProcessEnv : Type := mkProcessEnv {
  GITHUB_APP_ID : option string;
  GITHUB_PRIVATE_KEY_PATH : option string;
  GITHUB_WEBHOOK_SECRET : option string;
  GITHUB_APP_NAME : option string
}.

Record GitHubConfiguration : Type := mkConfiguration {
  webhookSecret : string;
  appId : string;
  privateKeyPath : string;
  appName : string
}.

(** Truthiness of a variable: set and not the empty string. *)
Definition is_set (v : option string) : bool :=
  match v with
  | Some s => truthy s
  | None => false
  end.

(** [v || d]. *)
Definition or_else (v : option string) (d : string) : string :=
  match v with
  | Some s => if truthy s then s else d
  | None => d
  end.

(** The [missingVars] array of [loadAndValidateConfiguration]. *)
Definition missingVars (env : ProcessEnv) : list string :=
  (if is_set (GITHUB_APP_ID env) then [] else ["GITHUB_APP_ID"])
  ++ (if is_set (GITHUB_PRIVATE_KEY_PATH env) then [] else ["GITHUB_PRIVATE_KEY_PATH"])
  ++ (if is_set (GITHUB_WEBHOOK_SECRET env) then [] else ["GITHUB_WEBHOOK_SECRET"]).

(** Strings are byte strings: the message's leading cross mark is its
    three UTF-8 bytes. *)
Definition loadAndValidateConfiguration (env : ProcessEnv)
    : result GitHubConfiguration :=
  let missing := missingVars env in
  if (0 <? length missing)%nat then
    Throw (Error ("❌ Missing required environment variables: " ++ join ", " missing))
  else
    Ok (mkConfiguration
          (or_else (GITHUB_WEBHOOK_SECRET env) "")
          (or_else (GITHUB_APP_ID env) "")
          (or_else (GITHUB_PRIVATE_KEY_PATH env) "")
          (or_else (GITHUB_APP_NAME env) "ai-code-reviewer")).

Definition validateConfiguration (config : GitHubConfiguration) : result unit :=
  if negb (truthy (appId config))
     || negb (truthy (privateKeyPath config))
     || negb (truthy (webhookSecret config))
  then
    Throw (Error "Invalid GitHub App configuration. GITHUB_APP_ID, GITHUB_PRIVATE_KEY_PATH, and GITHUB_WEBHOOK_SECRET are required")
  else Ok tt.

End Configuration.

(** ** The webhook application: factory, service state, handlers, controller *)

Module App.
Import JsString Workflow GitHubService WebhookService Configuration.

(** The service bundle of one installation; [installation] is the
    [installationId] the bundle's API client authenticates with. *)
Record GitHubServiceInstances : Type := mkInstances {
  installation : nat;
  githubService : GitHubService
}.

Record ServiceInitializationResult : Type := mkInitResult {
  init_success : bool;
  instances : option GitHubServiceInstances;
  init_error : option Exn
}.

Record PullRequest : Type := mkPullRequest {
  pr_number : nat;
  pr_title : string;
  merged : bool
}.

(** [body.comment], with the [pull_request_number] that the review-comment
    handler reads from it. *)
Record PostedComment : Type := mkPostedComment {
  posted : Comment;
  pull_request_number : nat
}.

(** [req.body], as far as the program reads it. *)
Record Payload : Type := mkPayload {
  installation_id : option nat;
  body_action : option string;
  body_number : option nat;
  body_pull_request : option PullRequest;
  body_issue : option Issue;
  body_comment : option PostedComment;
  body_repository : option Repository
}.

(** The event [parseWebhookEvent] builds. *)
Record ParsedEvent : Type := mkParsedEvent {
  ev_action : string;
  ev_number : option nat;
  ev_pull_request : option PullRequest;
  ev_issue : option Issue;
  ev_comment : option PostedComment;
  ev_repository : option Repository
}.

(** The part of the event the issue-comment handler reads. *)
Definition as_webhook_event (e : ParsedEvent) : WebhookEvent :=
  mkEvent (ev_action e) (ev_issue e) (posted <$> ev_comment e) (ev_repository e).

Record WebhookProcessingResult : Type := mkProcessingResult {
  message : string;
  event : option string;
  result_action : string;
  timestamp : string
}.

(** The calls a handler makes to the outside, in order. *)
Inductive Call : Type :=
  | GetPullRequest (owner repo : string) (prNumber : nat)
  | ExecuteReview (owner repo : string) (prNumber : nat)
  | GetPullRequestFiles (owner repo : string) (prNumber : nat)
  | ExecuteAssistant (owner repo : string) (prNumber : nat) (changedFiles : list string)
  | Mention (e : Effect).

(** The state of the two singletons: the factory's cache of service bundles
    and the webhook service's current bundle. *)
Record State : Type := mkState {
  serviceInstances : gmap string GitHubServiceInstances;
  currentServices : option GitHubServiceInstances;
  currentInstallationId : option nat;
  isInitialized : bool
}.

Definition initial_state : State := mkState ∅ None None false.

(** What the application calls and does not define: the file system and the
    prompt files read when a bundle is created, JSON serialisation, the HMAC
    digest, the clock, the regular-expression tests on comment bodies, the
    GitHub API and the two workflows. *)
Record Externals : Type := mkExternals {
  readFileSync : string -> result string;
  loadPrompts : result unit;
  stringify : Payload -> string;
  hmac_sha256_hex : string -> string -> result string;
  now : string;
  isBotMentioned : string -> bool;
  extractCommand : string -> option string;
  handleBotCommand : string -> string -> nat -> string -> string -> result string;
  getPullRequest : string -> string -> nat -> result bool;
  getPullRequestFiles : string -> string -> nat -> result (list string);
  reviewExecute : string -> string -> nat -> result (option BaseMessage);
  assistantExecute : string -> string -> nat -> list string -> result (option BaseMessage);
  createPRComment : string -> string -> nat -> string -> result unit
}.

(** An installation identifier is falsy when absent or zero. *)
Definition installation_of (req : Request Payload) : option nat :=
  match installation_id (body req) with
  | Some (S n) => Some (S n)
  | _ => None
  end.

(** [header === name], for a header that may be absent. *)
Definition is_event (header : option string) (name : string) : bool :=
  match header with
  | Some s => String.eqb s name
  | None => false
  end.

Section Application.
Variable config : GitHubConfiguration.
Variable ext : Externals.

(** *** The factory (GitHubServiceFactory) *)

(** [`app-${installationId}`]. *)
Definition generateCacheKey (installationId : nat) : string :=
  "app-" ++ pretty installationId.

(** [createServiceInstances]: [GitHubService.withApp] reads the private key
    and names the bot after the application ([GITHUB_APP_NAME], or
    ai-code-reviewer, which is the configuration's [appName]); the two
    workflow constructors load their prompts. *)
Definition createServiceInstances (installationId : nat)
    : result GitHubServiceInstances :=
  _ ← readFileSync ext (privateKeyPath config);
  _ ← loadPrompts ext;
  Ok (mkInstances installationId
        (mkGitHubService (webhookSecret config) (Some (appName config)))).

Definition getServiceInstances (cache : gmap string GitHubServiceInstances)
    (installationId : nat)
    : ServiceInitializationResult * gmap string GitHubServiceInstances :=
  let cacheKey := generateCacheKey installationId in
  match cache !! cacheKey with
  | Some cached => (mkInitResult true (Some cached) None, cache)
  | None =>
      match createServiceInstances installationId with
      | Ok created =>
          (mkInitResult true (Some created) None, <[cacheKey := created]> cache)
      | Throw e => (mkInitResult false None (Some e), cache)
      end
  end.

Definition hasServiceInstances (cache : gmap string GitHubServiceInstances)
    (installationId : nat) : bool :=
  bool_decide (is_Some (cache !! generateCacheKey installationId)).

Definition clearCache (cache : gmap string GitHubServiceInstances)
    : gmap string GitHubServiceInstances := ∅.

(** *** The webhook service *)

Definition ensureInitialized (st : State) (req : Request Payload)
    : result unit * State :=
  match installation_of req with
  | None =>
      (Throw (Error "GitHub App installation ID is required in webhook payload"), st)
  | Some installationId =>
      if isInitialized st
         && bool_decide (currentInstallationId st = Some installationId)
         && bool_decide (is_Some (currentServices st))
      then (Ok tt, st)
      else
        let '(res, cache) := getServiceInstances (serviceInstances st) installationId in
        match init_success res, instances res with
        | true, Some found =>
            (Ok tt, mkState cache (Some found) (Some installationId) true)
        | _, _ =>
            (Throw (default (Error "Failed to initialize GitHub services")
                      (init_error res)),
             mkState cache (currentServices st) (currentInstallationId st)
               (isInitialized st))
        end
  end.

(** The view of the state that [verifySignature] reads. *)
Definition as_webhook_service (st : State) : WebhookService :=
  mkWebhookService (githubService <$> currentServices st).

Definition verifySignature (st : State) (req : Request Payload) : result bool :=
  WebhookService.verifySignature (stringify ext) (hmac_sha256_hex ext)
    (as_webhook_service st) req.

(** [parseWebhookEvent]: nothing in its [try] can throw on a body that is
    an object, so it never returns [null] here. *)
Definition parseWebhookEvent (body : Payload) : option ParsedEvent :=
  Some (mkParsedEvent
          (match body_action body with
           | Some a => if truthy a then a else "unknown"
           | None => "unknown"
           end)
          (match body_number body with
           | Some (S n) => Some (S n)
           | _ =>
               match pr_number <$> body_pull_request body with
               | Some (S n) => Some (S n)
               | _ => issue_number <$> body_issue body
               end
           end)
          (body_pull_request body) (body_issue body) (body_comment body)
          (body_repository body)).

(** The greeting's emoji is left out. *)
Definition handlePingEvent : WebhookProcessingResult :=
  mkProcessingResult "Pong! AI Code Reviewer webhook is active"
    (Some "ping") "ping" (now ext).

Definition handleInstallationEvents (st : State) (e : ParsedEvent) : State :=
  if String.eqb (ev_action e) "deleted" || String.eqb (ev_action e) "suspend"
  then mkState (clearCache (serviceInstances st)) None None false
  else st.

(** What is posted for a workflow's last message: nothing when its content is
    falsy, the content (serialised when it is not text) otherwise. *)
Definition comment_for (owner repo : string) (prNumber : nat)
    (lastMessage : BaseMessage) : list Call :=
  match content lastMessage with
  | Text s => if truthy s then [Mention (CreatePRComment owner repo prNumber s)] else []
  | Structured json => [Mention (CreatePRComment owner repo prNumber json)]
  end.

(** [handlePRReview]: everything is inside a [try] whose [catch] only logs. *)
Definition handlePRReview (owner repo : string) (prNumber : nat) : list Call :=
  GetPullRequest owner repo prNumber ::
  match getPullRequest ext owner repo prNumber with
  | Throw _ => []
  | Ok true => []
  | Ok false =>
      ExecuteReview owner repo prNumber ::
      match reviewExecute ext owner repo prNumber with
      | Ok (Some lastMessage) => comment_for owner repo prNumber lastMessage
      | _ => []
      end
  end.

(** [handlePRUpdate]: likewise. *)
Definition handlePRUpdate (owner repo : string) (prNumber : nat) : list Call :=
  GetPullRequestFiles owner repo prNumber ::
  match getPullRequestFiles ext owner repo prNumber with
  | Throw _ => []
  | Ok changedFiles =>
      ExecuteAssistant owner repo prNumber changedFiles ::
      match assistantExecute ext owner repo prNumber changedFiles with
      | Ok (Some lastMessage) => comment_for owner repo prNumber lastMessage
      | _ => []
      end
  end.

(** The message's emoji is left out. *)
Definition merged_message : string :=
  "**PR Merged!** Thanks for the great code contribution!".

(** [handlePRClosed]: no [try]; a failure to post propagates. *)
Definition handlePRClosed (owner repo : string) (prNumber : nat) (merged : bool)
    : result unit * list Call :=
  if merged then
    (createPRComment ext owner repo prNumber merged_message,
     [Mention (CreatePRComment owner repo prNumber merged_message)])
  else (Ok tt, []).

Definition handlePullRequestEvent (e : ParsedEvent) : result unit * list Call :=
  match ev_pull_request e, ev_repository e with
  | Some pr, Some repository =>
      let owner := login (owner repository) in
      let repo := repo_name repository in
      let prNumber := pr_number pr in
      let action := ev_action e in
      if String.eqb action "opened" || String.eqb action "ready_for_review"
      then (Ok tt, handlePRReview owner repo prNumber)
      else if String.eqb action "synchronize"
      then (Ok tt, handlePRUpdate owner repo prNumber)
      else if String.eqb action "reopened"
      then (Ok tt, handlePRReview owner repo prNumber)
      else if String.eqb action "closed"
      then handlePRClosed owner repo prNumber (merged pr)
      else (Ok tt, [])
  | _, _ => (Ok tt, [])
  end.

Definition handleReviewCommentEvent (gh : GitHubService) (e : ParsedEvent)
    : list Effect :=
  match ev_comment e, ev_repository e with
  | Some c, Some repository =>
      let commentUser := login (user (posted c)) in
      if negb (isCommentFromBot gh commentUser)
         && isBotMentioned ext (comment_body (posted c))
      then handleBotMention (extractCommand ext) (handleBotCommand ext)
             (login (owner repository)) (repo_name repository)
             (pull_request_number c) (comment_body (posted c)) commentUser
      else []
  | _, _ => []
  end.

Definition routeEventToHandler (gh : GitHubService) (e : ParsedEvent)
    (eventType : option string) : result unit * list Call :=
  if is_event eventType "pull_request" then handlePullRequestEvent e
  else if is_event eventType "issue_comment" then
    (Ok tt,
     Mention <$> handleIssueCommentEvent (isBotMentioned ext) (extractCommand ext)
                   (handleBotCommand ext) gh (as_webhook_event e))
  else if is_event eventType "pull_request_review_comment" then
    (Ok tt, Mention <$> handleReviewCommentEvent gh e)
  else (Ok tt, []).

Definition processWebhook (st : State) (req : Request Payload)
    : result WebhookProcessingResult * State * list Call :=
  match currentServices st with
  | None => (Throw (Error "Services not initialized"), st, [])
  | Some services =>
      match parseWebhookEvent (body req) with
      | None => (Throw (Error "Failed to parse webhook event"), st, [])
      | Some e =>
          let githubEvent := headers req !! "x-github-event" in
          if is_event githubEvent "ping" then (Ok handlePingEvent, st, [])
          else if is_event githubEvent "installation"
                  || is_event githubEvent "installation_repositories"
          then
            (Ok (mkProcessingResult
                   (default "" githubEvent ++ " event processed successfully")
                   githubEvent (ev_action e) (now ext)),
             handleInstallationEvents st e, [])
          else
            match ev_repository e with
            | None =>
                (Throw (Error "Webhook event missing repository information"),
                 st, [])
            | Some _ =>
                let '(handled, calls) :=
                  routeEventToHandler (githubService services) e githubEvent in
                (_ ← handled;
                 Ok (mkProcessingResult "Webhook processed successfully"
                       githubEvent (ev_action e) (now ext)),
                 st, calls)
            end
      end
  end.

(** *** The controller (WebhookController) and the router *)

Record Response : Type := mkResponse {
  status : nat;
  success : bool;
  data : option WebhookProcessingResult;
  error : option string
}.

Definition message_of (e : Exn) : string :=
  match e with
  | GraphRecursionError => "Recursion limit reached"
  | NodeError m | TypeError m | RangeError m | Error m => m
  end.

(** The status [sendErrorResponse] settles on. *)
Definition error_status (errorMessage : string) (statusCode : option nat) : nat :=
  let status := match statusCode with Some (S n) => S n | _ => 500 end in
  if includes errorMessage "configuration" then 500
  else if includes errorMessage "Failed to parse webhook" then 400
  else if includes errorMessage "missing repository information" then 400
  else if includes errorMessage "installation ID is required" then 400
  else if includes errorMessage "Invalid webhook signature" then 401
  else status.

Definition sendErrorResponse (e : Exn) (statusCode : option nat) : Response :=
  mkResponse (error_status (message_of e) statusCode) false None (Some (message_of e)).

Definition sendSuccessResponse (d : WebhookProcessingResult) : Response :=
  mkResponse 200 true (Some d) None.

Definition requiresInstallationId (req : Request Payload) : bool :=
  let eventType := headers req !! "x-github-event" in
  if is_event eventType "ping" then false
  else if is_event eventType "installation"
          || is_event eventType "installation_repositories"
  then false
  else true.

(** The middleware either answers the request or calls [next()]. *)
Inductive Middleware : Type :=
  | Answered (r : Response)
  | Next.

Definition validateAndInitialize (st : State) (req : Request Payload)
    : Middleware * State :=
  match validateConfiguration config with
  | Throw e => (Answered (sendErrorResponse e None), st)
  | Ok _ =>
      if match installation_of req with Some _ => false | None => true end
         && requiresInstallationId req
      then
        (Answered
           (sendErrorResponse
              (Error "GitHub App installation ID is required for this webhook event")
              (Some 400)),
         st)
      else
        let '(initialised, st') := ensureInitialized st req in
        match initialised with
        | Throw e => (Answered (sendErrorResponse e None), st')
        | Ok _ =>
            match verifySignature st' req with
            | Throw e => (Answered (sendErrorResponse e None), st')
            | Ok false =>
                (Answered (sendErrorResponse (Error "Invalid webhook signature")
                             (Some 401)),
                 st')
            | Ok true => (Next, st')
            end
        end
  end.

Definition handleWebhook (st : State) (req : Request Payload)
    : Response * State * list Call :=
  let '(processed, st', calls) := processWebhook st req in
  (match processed with
   | Ok d => sendSuccessResponse d
   | Throw e => sendErrorResponse e None
   end,
   st', calls).

(** [router.use(validateAndInitialize); router.post('/', handleWebhook)]. *)
Definition post_webhook (st : State) (req : Request Payload)
    : Response * State * list Call :=
  match validateAndInitialize st req with
  | (Answered r, st') => (r, st', [])
  | (Next, st') => handleWebhook st' req
  end.

End Application.

(** The bundles the state holds belong to the installations they are filed
    under: a cached bundle to the installation of its key, the current
    bundle to the current installation. *)
Definition coherent (st : State) : Prop :=
  (forall id i,
      serviceInstances st !! generateCacheKey id = Some i -> installation i = id)
  /\ (isInitialized st = true ->
      forall id, currentInstallationId st = Some id ->
      forall i, currentServices st = Some i -> installation i = id).

(** Whether a request's signature header lets it through with the bundle
    [i]: no header (or an empty one), or the expected signature. *)
Definition accepted (ext : Externals) (i : GitHubServiceInstances)
    (req : Request Payload) : bool :=
  match headers req !! "x-hub-signature-256" with
  | None => true
  | Some signature =>
      negb (truthy signature)
      || match hmac_sha256_hex ext (GitHubService.webhookSecret (githubService i))
                 (stringify ext (body req)) with
         | Ok digest => String.eqb signature ("sha256=" ++ digest)
         | Throw _ => false
         end
  end.

End App.

(** ** The interactive assistant's initial message *)

Module Interactive.
Import JsString Workflow.

Inductive ContextType : Type := comment | push | mention | question.

Record InteractiveContext : Type := mkContext {
  ctx_type : ContextType;
  userQuery : option string;
  changedFiles : option (list string);
  specificFile : option string;
  lineNumber : option nat;
  ctx_user : option string
}.

(** The double quote character, as a string. *)
Definition quote : string := String (ascii_of_nat 34) EmptyString.

(** [`${v}`] for a string that may be undefined. *)
Definition interpolate (v : option string) : string := default "undefined" v.

Definition createInitialMessage (owner repo : string) (prNumber : nat)
    (context : option InteractiveContext) : string :=
  let baseMessage := owner ++ "/" ++ repo ++ "#" ++ pretty prNumber in
  match context with
  | None => "Provide general assistance for " ++ baseMessage
  | Some context =>
      match ctx_type context with
      | mention | question =>
          "User question about " ++ baseMessage ++ ": "
          ++ quote ++ interpolate (userQuery context) ++ quote
          ++ match specificFile context with
             | Some f => if truthy f then " regarding file: " ++ f else ""
             | None => ""
             end
          ++ match lineNumber context with
             | Some (S n) => " at line " ++ pretty (S n)
             | _ => ""
             end
      | comment =>
          "User commented on " ++ baseMessage ++ ": "
          ++ quote ++ interpolate (userQuery context) ++ quote
          ++ " - provide helpful response"
      | push =>
          "New changes pushed to " ++ baseMessage
          ++ match changedFiles context with
             | Some (f :: fs) => ". Changed files: " ++ join ", " (f :: fs)
             | _ => ""
             end
          ++ ". Analyze what changed."
      end
  end.

(** The workflow class with its own [createInitialMessage]. *)
Definition assistant (workflowPrompts : WorkflowPrompts)
    : Subclass InteractiveContext :=
  InteractivePRAssistant workflowPrompts createInitialMessage.

(** [handleBotCommand]: a mention context around the command, then [execute]. *)
Definition handleBotCommand (workflowPrompts : WorkflowPrompts)
    (env : Collaborators) (this : Instance)
    (owner repo : string) (prNumber : nat) (command user : string)
    (specificFile : option string) (lineNumber : option nat)
    : result (option BaseMessage) * Instance :=
  execute (assistant workflowPrompts) env this owner repo prNumber
    (Some (mkContext mention (Some command) None specificFile lineNumber (Some user))).

End Interactive.

(** ** Prompt files (utils/prompt-loader.ts) *)

Module PromptLoader.
Import JsString.

Fixpoint drop (n : nat) (s : string) : string :=
  match n, s with
  | S n', String _ r => drop n' r
  | _, _ => s
  end.

(** [s.replace(pat, '')] for a string pattern: the first occurrence goes. *)
Fixpoint remove_first (pat s : string) : string :=
  if String.prefix pat s then drop (String.length pat) s
  else match s with
       | EmptyString => EmptyString
       | String c r => String c (remove_first pat r)
       end.

(** [s.replace(/-/g, '_')]. *)
Fixpoint dashes_to_underscores (s : string) : string :=
  match s with
  | EmptyString => EmptyString
  | String c r =>
      String (if Ascii.eqb c "-" then "_"%char else c) (dashes_to_underscores r)
  end.

(** [s.endsWith(suffix)]. *)
Definition endsWith (s suffix : string) : bool :=
  (String.length suffix <=? String.length s)%nat
  && String.eqb (drop (String.length s - String.length suffix) s) suffix.

(** [file.replace('.md', '').replace(/-/g, '_')]. *)
Definition agentNameOfFile (file : string) : string :=
  dashes_to_underscores (remove_first ".md" file).

(** The filter of [loadAgentPrompts]. *)
Definition isAgentFile (file : string) : bool :=
  endsWith file ".md" && negb (String.eqb file "workflow.md").

(** [prompts[key] = text] on a plain object, [text] a string: the key
    [__proto__] names the prototype setter, which ignores a string, so no
    property is made. *)
Definition assign (key text : string) (prompts : gmap string string)
    : gmap string string :=
  if String.eqb key "__proto__" then prompts else <[key := text]> prompts.

Record FileSystem : Type := mkFileSystem {
  readdirSync : string -> result (list string);
  readFileSync : string -> result string
}.

Section Loader.
(** [path.join] and [String.prototype.trim] are the platform's. *)
Variable path_join : string -> string -> string.
Variable trim : string -> string.
Variable PROMPTS_DIR : string.
Variable fs : FileSystem.

Definition loadMarkdownFile (filePath : string) : result string :=
  try_catch
    (text ← readFileSync fs filePath; Ok (trim text))
    (fun _ => Throw (Error ("Could not load prompt file: " ++ filePath))).

(** The loop [for (const file of agentFiles) prompts[agentName] = ...]. *)
Fixpoint load_files (workflowDir : string) (agentFiles : list string)
    (prompts : gmap string string) : result (gmap string string) :=
  match agentFiles with
  | [] => Ok prompts
  | file :: rest =>
      text ← loadMarkdownFile (path_join workflowDir file);
      load_files workflowDir rest (assign (agentNameOfFile file) text prompts)
  end.

(** [loadAgentPrompts]; [cache] is the part of [promptsCache] under the
    keys [agents-...]. *)
Definition loadAgentPrompts (cache : gmap string (gmap string string))
    (workflowName : string)
    : result (gmap string string) * gmap string (gmap string string) :=
  let cacheKey := "agents-" ++ workflowName in
  match cache !! cacheKey with
  | Some cached => (Ok cached, cache)
  | None =>
      let workflowDir := path_join PROMPTS_DIR workflowName in
      match (files ← readdirSync fs workflowDir;
             load_files workflowDir (List.filter isAgentFile files) ∅) with
      | Ok prompts => (Ok prompts, <[cacheKey := prompts]> cache)
      | Throw _ =>
          (Throw (Error ("Could not load agent prompts: " ++ workflowName)), cache)
      end
  end.

End Loader.

End PromptLoader.

(** ** Stub externals and requests for the examples of the application *)

Module AppScenario.
Import Workflow GitHubService WebhookService Configuration App.

Definition demo_externals : Externals :=
  mkExternals (fun _ => Ok "key") (Ok tt) (fun _ => "{}") (fun _ _ => Ok "00")
    "now" (fun _ => true) (fun body => Some body) (fun _ _ _ _ _ => Ok "reply")
    (fun _ _ _ => Ok false) (fun _ _ _ => Ok ["a.ts"])
    (fun _ _ _ => Ok (Some (mkMessage Human (Text "review") (Some "Reviewer"))))
    (fun _ _ _ _ => Ok None) (fun _ _ _ _ => Ok tt).

Definition demo_config : GitHubConfiguration :=
  mkConfiguration "secret" "1" "key.pem" "ai-code-reviewer".

Definition demo_request (eventType : string) (installation : option nat)
    (action : string) : Request Payload :=
  mkRequest Payload {[ "x-github-event" := eventType ]}
    (mkPayload installation (Some action) None
       (Some (mkPullRequest 7 "title" true))
       (Some (mkIssue 7 true))
       (Some (mkPostedComment (mkComment (mkUser "alice") "@ai-reviewer hi") 7))
       (Some (mkRepository "r" (mkUser "o")))).

End AppScenario.

(** * Properties *)

Import JsString Workflow Scenario.

(** ** Names of agents *)

Example formatAgentName_security :
  formatAgentName "security_agent" = "Security_Agent".
Proof. reflexivity. Qed.

Example formatAgentName_edge :
  formatAgentName "_a__bC_" = "_A__BC_".
Proof. reflexivity. Qed.

Lemma join_cons_char sep a w rest :
  join sep (String a w :: rest) = String a (join sep (w :: rest)).
Proof. destruct rest; reflexivity. Qed.

Lemma capitalize_cons c w : capitalize (String c w) = String (upper_char c) w.
Proof. reflexivity. Qed.

(** Both readings of a name at once: at the start of a word (the first word
    is capitalised too) and inside a word (the first word is kept). *)
Lemma format_scan (s : string) :
  join "_" (map capitalize (split "_" s)) = title_case_from true s
  /\ exists w ws, split "_" s = w :: ws
       /\ join "_" (w :: map capitalize ws) = title_case_from false s.
Proof.
  induction s as [|c r [IHstart (w & ws & Hsplit & IHin)]];
    cbn [split title_case_from].
  - split; [reflexivity|]. exists EmptyString, []. split; reflexivity.
  - destruct (Ascii.eqb c "_") eqn:Hc.
    + apply Ascii.eqb_eq in Hc. subst c.
      assert (Hjoin : join "_" (EmptyString :: map capitalize (split "_" r))
                      = String "_" (title_case_from true r)).
      { rewrite <- IHstart, Hsplit. reflexivity. }
      split.
      * exact Hjoin.
      * exists EmptyString, (split "_" r). split; [reflexivity|exact Hjoin].
    + rewrite Hsplit. split.
      * simpl map. rewrite capitalize_cons, join_cons_char, IHin. reflexivity.
      * exists (String c w), ws. split; [reflexivity|].
        rewrite join_cons_char, IHin. reflexivity.
Qed.

Lemma formatAgentName_title_case (n : string) :
  formatAgentName n = title_case_spec n.
Proof. apply format_scan. Qed.

(** C4. An agent node whose reasoning session returns at least one message
    yields an update with exactly one new message and no routing decision;
    the message is authored under the agent's name in Title_Case (as the
    character scan [title_case_spec] defines it, security_agent giving
    Security_Agent) and carries the content of the session's last message.
    Applied to the run state, it appends that one message and leaves [next]. *)
Theorem agentNode_one_titled_message
    (env : Collaborators) (a : AgentConfig) (st : RunState)
    (msgs : list BaseMessage) (lastMessage : BaseMessage) :
  session env a st = Ok msgs ->
  last msgs = Some lastMessage ->
  exists m,
    agentNode env a st = Ok (mkUpdate (Some [m]) None)
    /\ name m = Some (title_case_spec (agent_name a))
    /\ content m = content lastMessage
    /\ messages (apply_update st (Some (mkUpdate (Some [m]) None)))
       = (messages st ++ [m])%list
    /\ next (apply_update st (Some (mkUpdate (Some [m]) None))) = next st
    /\ formatAgentName "security_agent" = "Security_Agent".
Proof.
  intros Hsession Hlast.
  exists (HumanMessage (content lastMessage) (Some (formatAgentName (agent_name a)))).
  unfold agentNode. rewrite Hsession. simpl. rewrite Hlast.
  rewrite formatAgentName_title_case.
  repeat split; reflexivity.
Qed.

Lemma agentNode_one_titled_message_witness :
  exists m,
    agentNode (stub_env []) (agent "security_agent" []) default_state
      = Ok (mkUpdate (Some [m]) None)
    /\ name m = Some "Security_Agent"
    /\ content m = Text "security_agent:0".
Proof.
  destruct (agentNode_one_titled_message (stub_env []) (agent "security_agent" [])
              default_state
              [mkMessage AI (Text "security_agent:0") None]
              (mkMessage AI (Text "security_agent:0") None)
              eq_refl eq_refl) as (m & Hrun & Hname & Hcontent & _).
  exists m. repeat split; assumption.
Defined.

(** ** Single steps of the loop *)

Section Steps.
Context {TContext : Type}.
Variable wf : Subclass TContext.
Variable env : Collaborators.

(** A supervisor step whose reply's first tool call names [d]: [d] is
    written to [next] as it is, what the call carries under [messages] is
    appended, and the run goes where [route] says. *)
Lemma supervisor_tick (l : Loop) (call : ToolCall) (rest : list ToolCall)
    (d : string) (nxt : option Task) :
  decide env (supervisor_calls l) (state l) = Ok (mkChunk (call :: rest)) ->
  arg_next call = Some d ->
  route wf d = Ok nxt ->
  tick wf env l RunSupervisor
  = Ok (mkLoop
          (mkRunState (messages (state l) ++ default [] (arg_messages call)) d)
          (S (steps l)) (S (supervisor_calls l)) nxt).
Proof.
  intros Hdecide Hnext Hroute.
  unfold tick, supervisorNode. rewrite Hdecide. simpl.
  unfold next_reducer, messages_reducer. rewrite Hnext, Hroute.
  destruct (arg_messages call); simpl; by rewrite ?app_nil_r.
Qed.

Lemma agent_tick (l : Loop) (a : AgentConfig) (msgs : list BaseMessage)
    (m : BaseMessage) :
  session env a (state l) = Ok msgs ->
  last msgs = Some m ->
  tick wf env l (RunAgent a)
  = Ok (mkLoop
          (mkRunState
             (messages (state l)
                ++ [HumanMessage (content m) (Some (formatAgentName (agent_name a)))])
             (next (state l)))
          (S (steps l)) (supervisor_calls l) (after_agent wf a)).
Proof.
  intros Hsession Hlast.
  unfold tick, agentNode. rewrite Hsession. simpl. rewrite Hlast. reflexivity.
Qed.

Lemma run_loop_step (fuel : nat) (l l' : Loop) (t : Task) :
  pending l = Some t -> tick wf env l t = Ok l' ->
  run_loop wf env (S fuel) l = run_loop wf env fuel l'.
Proof. intros Hp Htick. simpl. by rewrite Hp, Htick. Qed.

Lemma run_loop_done (fuel : nat) (l : Loop) :
  pending l = None -> run_loop wf env (S fuel) l = Finished l.
Proof. intros Hp. simpl. by rewrite Hp. Qed.

(** With no step left the engine gives up, whatever is pending. *)
Lemma run_loop_out (l : Loop) :
  run_loop wf env 0 l = Aborted GraphRecursionError l.
Proof. reflexivity. Qed.

Lemma execute_unfold (this : Instance) (owner repo : string) (prNumber : nat)
    (context : option TContext) :
  prompt_partial (config wf) = Ok tt ->
  valid_graph wf = true ->
  execute wf env this owner repo prNumber context
  = let run :=
      invoke wf env (checkpointer this) (initialState wf owner repo prNumber context)
        (ceiling (config wf)) (thread_id owner repo prNumber) in
    (returned run.1, mkInstance true (store this) run.2).
Proof.
  intros Hprompt Hvalid. unfold execute. rewrite Hprompt, Hvalid.
  by destruct (invoke _ _ _ _ _ _).
Qed.

(** Either the prompt and the graph are accepted, or every call of
    [execute] throws the same error before any node runs and leaves the
    store and the checkpointer as they are. *)
Lemma execute_cases :
  (prompt_partial (config wf) = Ok tt /\ valid_graph wf = true)
  \/ exists e,
       (prompt_partial (config wf) = Throw e
        \/ (valid_graph wf = false /\ e = Error "Invalid graph"))
       /\ forall this owner repo prNumber context,
            execute wf env this owner repo prNumber context
            = (Throw e, mkInstance true (store this) (checkpointer this)).
Proof.
  unfold execute.
  destruct (prompt_partial (config wf)) as [[]|e] eqn:Hprompt.
  - destruct (valid_graph wf) eqn:Hvalid; [by left|].
    right. exists (Error "Invalid graph"). split; [by right|done].
  - right. exists e. split; [by left|done].
Qed.

End Steps.

(** ** The message history only grows *)

Section AppendOnly.
Context {TContext : Type}.
Variable wf : Subclass TContext.
Variable env : Collaborators.

Lemma apply_update_prefix (st : RunState) (u : option Update) :
  messages st `prefix_of` messages (apply_update st u).
Proof.
  destruct u as [[[y|] nx]|]; simpl; try reflexivity.
  unfold messages_reducer. by apply prefix_app_r.
Qed.

Lemma tick_prefix (l l' : Loop) (t : Task) :
  tick wf env l t = Ok l' ->
  messages (state l) `prefix_of` messages (state l').
Proof.
  unfold tick. destruct t as [|a]; simpl.
  - destruct (supervisorNode env (supervisor_calls l) (state l)) as [upd|e];
      simpl; [|discriminate].
    destruct (route wf (next (apply_update (state l) upd))) as [nxt|e];
      simpl; [|discriminate].
    intros [= <-]. apply apply_update_prefix.
  - destruct (agentNode env a (state l)) as [upd|e]; simpl; [|discriminate].
    intros [= <-]. apply (apply_update_prefix _ (Some upd)).
Qed.

Lemma reaches_prefix (l l' : Loop) :
  reaches wf env l l' ->
  messages (state l) `prefix_of` messages (state l').
Proof.
  induction 1 as [l|l t l1 l2 _ Htick _ IH]; [reflexivity|].
  etrans; [exact (tick_prefix _ _ _ Htick)|exact IH].
Qed.

(** The state in which [run_loop] ends is one the execution reaches. *)
Lemma run_loop_reaches (fuel : nat) (l : Loop) :
  exists l', reaches wf env l l'
             /\ state (loop_of (run_loop wf env fuel l)) = state l'.
Proof.
  revert l. induction fuel as [|fuel IH]; intros l; simpl.
  - exists l. split; [constructor|reflexivity].
  - destruct (pending l) as [t|] eqn:Hp.
    + destruct (tick wf env l t) as [l1|e] eqn:Htick.
      * destruct (IH l1) as (l2 & Hreach & Hstate).
        exists l2. split; [|exact Hstate].
        eapply reaches_tick; eauto.
      * exists l. split; [constructor|reflexivity].
    + exists l. split; [constructor|reflexivity].
Qed.

Lemma run_loop_prefix (fuel : nat) (l : Loop) :
  messages (state l) `prefix_of` messages (state (loop_of (run_loop wf env fuel l))).
Proof.
  destruct (run_loop_reaches fuel l) as (l' & Hreach & ->).
  by apply reaches_prefix.
Qed.

End AppendOnly.

(** C3. The [messages] reducer is concatenation with the empty list as
    default, and along every execution the history only grows: between any
    two points [l], [l'] of the execution loop, the messages at [l] are a
    prefix of the messages at [l'] (nothing removed, changed or reordered, and
    the length does not decrease), and the same holds from [l'] to the state
    in which the run ends, and from the saved state a run starts from. *)
Theorem messages_append_only {TContext : Type}
    (wf : Subclass TContext) (env : Collaborators) (l l' : Loop) :
  reaches wf env l l' ->
  (forall x y, messages_reducer x y = (x ++ y)%list)
  /\ messages_default = []
  /\ messages (state l) `prefix_of` messages (state l')
  /\ length (messages (state l)) <= length (messages (state l'))
  /\ (forall fuel,
        messages (state l')
          `prefix_of` messages (state (loop_of (run_loop wf env fuel l'))))
  /\ (forall cp input limit thread,
        messages (default default_state (cp !! thread))
          `prefix_of`
          messages (state (loop_of (invoke wf env cp input limit thread).1))).
Proof.
  intros Hreach.
  pose proof (reaches_prefix wf env l l' Hreach) as Hpre.
  repeat split; try done.
  - by apply prefix_length.
  - intros fuel. apply run_loop_prefix.
  - intros cp input limit thread. unfold invoke. simpl.
    etrans; [|apply run_loop_prefix]. simpl.
    apply (apply_update_prefix _ (Some input)).
Qed.

Lemma messages_append_only_witness :
  let start :=
    mkLoop (mkRunState [HumanMessage (Text "Review o/r#1") None] END)
      0 0 (Some RunSupervisor) in
  exists l',
    reaches two_agents (stub_env ["agent1"; END]) start l'
    /\ length (messages (state l')) = 2
    /\ messages (state start) `prefix_of` messages (state l').
Proof.
  intros start.
  assert (Hreach :
    reaches two_agents (stub_env ["agent1"; END]) start
      (mkLoop
         (mkRunState [HumanMessage (Text "Review o/r#1") None;
                      HumanMessage (Text "agent1:1") (Some "Agent1")] "agent1")
         2 1 (Some RunSupervisor))).
  { eapply reaches_tick; [reflexivity|reflexivity|].
    eapply reaches_tick; [reflexivity|reflexivity|].
    apply reaches_here. }
  eexists. split; [exact Hreach|]. split; [reflexivity|].
  exact (proj1 (proj2 (proj2
          (messages_append_only two_agents (stub_env ["agent1"; END]) _ _ Hreach)))).
Defined.

(** ** The iteration ceiling *)

Section Ceiling.
Context {TContext : Type}.
Variable wf : Subclass TContext.
Variable env : Collaborators.

Lemma ceiling_positive (c : WorkflowConfig) : 1 <= ceiling c.
Proof. unfold ceiling. destruct (recursionLimit c) as [[|n]|]; lia. Qed.

Lemma tick_counts (l l' : Loop) (t : Task) :
  tick wf env l t = Ok l' ->
  steps l' = S (steps l)
  /\ supervisor_calls l <= supervisor_calls l' <= S (supervisor_calls l).
Proof.
  unfold tick. destruct t as [|a]; simpl.
  - destruct (supervisorNode env _ _) as [upd|e]; simpl; [|discriminate].
    destruct (route wf _) as [nxt|e]; simpl; [|discriminate].
    intros [= <-]. simpl. lia.
  - destruct (agentNode env a _) as [upd|e]; simpl; [|discriminate].
    intros [= <-]. simpl. lia.
Qed.

(** Each step started counts once, and the supervisor's invocations are
    among the steps. *)
Lemma run_loop_counts (fuel : nat) (l : Loop) :
  let o := loop_of (run_loop wf env fuel l) in
  steps l <= steps o <= steps l + fuel
  /\ supervisor_calls l <= supervisor_calls o
  /\ supervisor_calls o + steps l <= supervisor_calls l + steps o.
Proof.
  revert l. induction fuel as [|fuel IH]; intros l; simpl.
  - lia.
  - destruct (pending l) as [t|]; [|simpl; lia].
    destruct (tick wf env l t) as [l1|e] eqn:Htick.
    + apply tick_counts in Htick as [Hs Hc].
      specialize (IH l1). simpl in IH. lia.
    + destruct t; simpl; lia.
Qed.

(** A run finishes only with no node left to run, and before its last
    allowed step. *)
Lemma run_loop_finished (fuel : nat) (l l' : Loop) :
  run_loop wf env fuel l = Finished l' ->
  pending l' = None /\ steps l' < steps l + fuel.
Proof.
  revert l. induction fuel as [|fuel IH]; intros l; simpl.
  - discriminate.
  - destruct (pending l) as [t|] eqn:Hp; [|intros [= <-]; split; [done|lia]].
    destruct (tick wf env l t) as [l1|e] eqn:Htick; [|discriminate].
    intros Hrun. apply IH in Hrun as [Hnone Hsteps].
    apply tick_counts in Htick as [Hs _]. split; [done|lia].
Qed.

Lemma find_agent_member (d : string) :
  d ∈ agent_names wf ->
  exists a, find_agent wf d = Some a /\ agent_name a = d.
Proof.
  unfold agent_names, find_agent.
  induction (getAgentConfigs wf) as [|a rest IH]; simpl.
  - by intros ?%elem_of_nil.
  - intros Hin. destruct (String.eqb (agent_name a) d) eqn:Heq.
    + apply String.eqb_eq in Heq. eauto.
    + apply String.eqb_neq in Heq.
      apply elem_of_cons in Hin as [->|Hin]; [done|by apply IH].
Qed.

Lemma route_member (d : string) :
  valid_graph wf = true -> d ∈ members (config wf) -> d <> "" ->
  exists a, route wf d = Ok (Some (RunAgent a)) /\ agent_name a = d.
Proof.
  unfold valid_graph. intros Hvalid Hd Hne.
  repeat (apply andb_prop in Hvalid as [Hvalid ?]).
  repeat match goal with
         | H : bool_decide _ = true |- _ => apply bool_decide_eq_true_1 in H
         end.
  assert (Hin : d ∈ agent_names wf).
  { eapply Forall_forall in Hd; [|eassumption]. exact Hd. }
  destruct (find_agent_member d Hin) as (a & Hfind & Hname).
  exists a. split; [|exact Hname].
  unfold route.
  destruct (String.eqb d "") eqn:E1; [by apply String.eqb_eq in E1|].
  destruct (String.eqb d END) eqn:E2.
  { apply String.eqb_eq in E2. by rewrite E2 in Hin. }
  destruct (String.eqb d "supervisor") eqn:E3.
  { apply String.eqb_eq in E3. rewrite E3 in Hin.
    match goal with H : NoDup _ |- _ => apply NoDup_cons in H as [? _] end.
    done. }
  by rewrite Hfind.
Qed.

Lemma never_terminal_runs_out (fuel : nat) (l : Loop) :
  valid_graph wf = true -> never_terminal wf env -> routed wf l ->
  exists l', run_loop wf env fuel l = Aborted GraphRecursionError l'
             /\ steps l' = steps l + fuel.
Proof.
  intros Hvalid [Horacle Hsession]. revert l.
  induction fuel as [|fuel IH]; intros l Hrouted.
  - exists l. split; [reflexivity|lia].
  - destruct Hrouted as [Hp|(a & Hp & Ha)].
    + destruct (Horacle (supervisor_calls l) (state l))
        as (call & rest & d & Hdecide & Hnext & Hd & Hne).
      destruct (route_member d Hvalid Hd Hne) as (a & Hroute & Hname).
      erewrite run_loop_step;
        [|exact Hp|eapply supervisor_tick; [exact Hdecide|exact Hnext|exact Hroute]].
      edestruct IH as (l' & -> & Hsteps).
      { right. exists a. split; [reflexivity|]. by rewrite Hname. }
      exists l'. split; [reflexivity|]. simpl in Hsteps. lia.
    + destruct (Hsession a (state l)) as (msgs & m & Hrun & Hlast).
      erewrite run_loop_step;
        [|exact Hp|eapply agent_tick; [exact Hrun|exact Hlast]].
      edestruct IH as (l' & -> & Hsteps).
      { left. simpl. unfold after_agent. by rewrite bool_decide_eq_true_2. }
      exists l'. split; [reflexivity|]. simpl in Hsteps. lia.
Qed.

Lemma reaches_steps (l l' : Loop) :
  reaches wf env l l' -> steps l <= steps l'.
Proof.
  induction 1 as [l|l t l1 l2 _ Htick _ IH]; [lia|].
  apply tick_counts in Htick as [Hs _]. lia.
Qed.

(** A run that gets to a point where all the steps allowed are used is
    aborted there, whether a node is still to run or not. *)
Lemma run_loop_exhausted (fuel : nat) (l l' : Loop) :
  reaches wf env l l' -> steps l' = steps l + fuel ->
  run_loop wf env fuel l = Aborted GraphRecursionError l'.
Proof.
  intros Hreach. revert fuel.
  induction Hreach as [l|l t l1 l2 Hp Htick Hreach IH]; intros fuel Hsteps.
  - by assert (fuel = 0) as -> by lia.
  - pose proof (reaches_steps _ _ Hreach) as Hle.
    pose proof Htick as [Hs _]%tick_counts.
    destruct fuel as [|fuel]; [lia|].
    simpl. rewrite Hp, Htick. apply IH. lia.
Qed.

End Ceiling.

(** C2. The ceiling of a run is the configured [recursionLimit], or 100
    when none is configured (or 0): [limit] below. It is the number of steps
    [execute] allows the engine, so it bounds all node executions of the
    run, the supervisor's invocations among them. [execute] returns a
    message only when the loop ended by itself, with no node left to run
    and before the last step allowed. Whenever a run has used its [limit]
    steps it is aborted there with the engine's recursion-limit error (the
    specification's IterationLimitExceeded), which [execute] rethrows; so
    is, in particular, every run whose oracle never selects the terminal
    marker. *)
Theorem supervisor_invocations_bounded {TContext : Type}
    (wf : Subclass TContext) (env : Collaborators) (this : Instance)
    (owner repo : string) (prNumber : nat) (context : option TContext)
    (limit : nat) :
  (recursionLimit (config wf) = Some limit /\ limit <> 0)
  \/ ((recursionLimit (config wf) = None \/ recursionLimit (config wf) = Some 0)
      /\ limit = 100) ->
  let thread := thread_id owner repo prNumber in
  let start :=
    mkLoop
      (apply_update (default default_state (checkpointer this !! thread))
         (Some (initialState wf owner repo prNumber context)))
      0 0 (Some RunSupervisor) in
  let out := run_loop wf env limit start in
  let run := execute wf env this owner repo prNumber context in
  (prompt_partial (config wf) = Ok tt -> valid_graph wf = true ->
   run.1 = returned out
   /\ checkpointer run.2 !! thread = Some (state (loop_of out)))
  /\ supervisor_calls (loop_of out) <= limit
  /\ steps (loop_of out) <= limit
  /\ (forall m, run.1 = Ok m ->
        exists l, out = Finished l /\ pending l = None /\ steps l < limit)
  /\ (forall l,
        reaches wf env start l -> steps l = limit ->
        out = Aborted GraphRecursionError l
        /\ (prompt_partial (config wf) = Ok tt -> valid_graph wf = true ->
            run.1 = Throw GraphRecursionError))
  /\ (valid_graph wf = true -> never_terminal wf env ->
      exists l, out = Aborted GraphRecursionError l
                /\ steps l = limit
                /\ supervisor_calls l <= limit
                /\ (prompt_partial (config wf) = Ok tt ->
                    run.1 = Throw GraphRecursionError)).
Proof.
  intros Hlimit thread start out run.
  assert (Hceiling : ceiling (config wf) = limit).
  { unfold ceiling.
    destruct Hlimit as [[-> Hpos]|[[->| ->] ->]]; [by destruct limit|done|done]. }
  assert (Hrun : prompt_partial (config wf) = Ok tt -> valid_graph wf = true ->
                 run = (returned out,
                        mkInstance true (store this)
                          (<[thread := state (loop_of out)]> (checkpointer this)))).
  { intros Hprompt Hvalid. subst run. rewrite execute_unfold by done.
    unfold invoke. by rewrite Hceiling. }
  pose proof (run_loop_counts wf env limit start) as Hcount.
  cbn zeta in Hcount. fold out in Hcount. simpl in Hcount.
  split; [|split; [lia|split; [lia|split; [|split]]]].
  - intros Hprompt Hvalid. rewrite Hrun by done. cbn [fst snd checkpointer].
    by rewrite lookup_insert_eq.
  - intros m Hgot.
    destruct (execute_cases wf env) as [[Hprompt Hvalid]|(e & _ & Hthrow)].
    + rewrite Hrun in Hgot by done. cbn [fst] in Hgot.
      destruct out as [l|e l] eqn:Hout; [|discriminate].
      exists l. split; [reflexivity|].
      apply run_loop_finished in Hout as [Hnone Hsteps]. split; [done|].
      simpl in Hsteps. lia.
    + subst run. rewrite Hthrow in Hgot. discriminate.
  - intros l Hreach Hsteps.
    assert (Hout : out = Aborted GraphRecursionError l)
      by (by apply run_loop_exhausted).
    split; [exact Hout|].
    intros Hprompt Hvalid. rewrite Hrun by done. cbn [fst]. by rewrite Hout.
  - intros Hvalid Hnever.
    destruct (never_terminal_runs_out wf env limit start Hvalid Hnever)
      as (l & Hout & Hsteps).
    { by left. }
    fold out in Hout. rewrite Hout in Hcount. simpl in Hcount, Hsteps.
    exists l. split; [exact Hout|]. split; [lia|]. split; [lia|].
    intros Hprompt. rewrite Hrun by done. cbn [fst]. by rewrite Hout.
Qed.

Lemma supervisor_invocations_bounded_witness :
  let wf := workflow_of ["agent1"; "agent2"] (Some 2) in
  let env := constant_env "agent1" in
  recursionLimit (config wf) = Some 2
  /\ (execute wf env new_instance "o" "r" 1 None).1 = Throw GraphRecursionError
  /\ exists l,
       (invoke wf env ∅ (initialState wf "o" "r" 1 None) (ceiling (config wf))
          "o/r#1").1
       = Aborted GraphRecursionError l
       /\ steps l = 2
       /\ supervisor_calls l <= 2.
Proof.
  intros wf env.
  destruct (proj2 (proj2 (proj2 (proj2 (proj2
    (supervisor_invocations_bounded wf env new_instance "o" "r" 1 None 2
       (or_introl (conj eq_refl (Nat.neq_succ_0 1)))))))))
    as (l & Hout & Hsteps & Hcalls & Hgot).
  - reflexivity.
  - split.
    + intros n st. exists (mkToolCall "route" (Some "agent1") None), [], "agent1".
      repeat split; [|discriminate].
      apply elem_of_cons. by left.
    + intros a st. eexists _, _. split; [reflexivity|].
      apply last_snoc.
  - split; [reflexivity|]. split; [by apply Hgot|].
    exists l. repeat split; assumption.
Defined.

(** With a ceiling of 2 and an oracle that always names agent1, the run is
    aborted once the supervisor and one agent have run. *)
Example ceiling_two_run :
  (invoke (workflow_of ["agent1"; "agent2"] (Some 2)) (constant_env "agent1") ∅
     (initialState (workflow_of ["agent1"; "agent2"] (Some 2)) "o" "r" 1 None)
     2 "o/r#1").1
  = Aborted GraphRecursionError
      (mkLoop
         (mkRunState [HumanMessage (Text "Review o/r#1") None;
                      HumanMessage (Text "agent1:1") (Some "Agent1")] "agent1")
         2 1 (Some RunSupervisor)).
Proof. reflexivity. Qed.

(** ** Scenario A: two agents, then the terminal marker *)

(** C5. For a workflow whose members and agent nodes are agent1 and agent2
    and whose prompt is accepted, with a decision oracle that answers agent1,
    agent2, terminal, reasoning sessions that answer, a ceiling above the
    five steps the run takes (the default is 100) and no state saved under
    the run's thread: the run finishes; its final state holds exactly three
    messages, the initial human message followed by one message of each
    agent in that order, and [next] is the terminal marker; [execute]
    returns the last of them. *)
Theorem scenario_two_agents_then_end {TContext : Type}
    (wf : Subclass TContext) (env : Collaborators) (this : Instance)
    (owner repo : string) (prNumber : nat) (context : option TContext) :
  members (config wf) = ["agent1"; "agent2"] ->
  agent_names wf = ["agent1"; "agent2"] ->
  prompt_partial (config wf) = Ok tt ->
  (forall n st, decide env n st = stub_oracle ["agent1"; "agent2"; END] n st) ->
  (forall a st, exists msgs m, session env a st = Ok msgs /\ last msgs = Some m) ->
  5 < ceiling (config wf) ->
  checkpointer this !! thread_id owner repo prNumber = None ->
  exists l m1 m2,
    (invoke wf env (checkpointer this) (initialState wf owner repo prNumber context)
       (ceiling (config wf)) (thread_id owner repo prNumber)).1 = Finished l
    /\ messages (state l)
       = [HumanMessage (Text (createInitialMessage wf owner repo prNumber context)) None;
          m1; m2]
    /\ name m1 = Some "Agent1" /\ name m2 = Some "Agent2"
    /\ length (messages (state l)) = 3
    /\ next (state l) = END
    /\ supervisor_calls l = 3
    /\ (execute wf env this owner repo prNumber context).1 = Ok (Some m2).
Proof.
  intros Hmembers Hnames Hprompt Hdecide Hsession Hceil Hfresh.
  assert (Hvalid : valid_graph wf = true).
  { unfold valid_graph. rewrite Hnames, Hmembers. reflexivity. }
  unfold agent_names in Hnames.
  destruct (getAgentConfigs wf) as [|a1 [|a2 [|? ?]]] eqn:Hagents; try discriminate.
  injection Hnames as Hn1 Hn2.
  assert (Hroute1 : route wf "agent1" = Ok (Some (RunAgent a1))).
  { unfold route, find_agent. rewrite Hagents. simpl. by rewrite Hn1. }
  assert (Hroute2 : route wf "agent2" = Ok (Some (RunAgent a2))).
  { unfold route, find_agent. rewrite Hagents. simpl. by rewrite Hn1, Hn2. }
  assert (Hafter1 : after_agent wf a1 = Some RunSupervisor).
  { unfold after_agent. by rewrite Hn1, Hmembers. }
  assert (Hafter2 : after_agent wf a2 = Some RunSupervisor).
  { unfold after_agent. by rewrite Hn2, Hmembers. }
  set (human :=
    HumanMessage (Text (createInitialMessage wf owner repo prNumber context)) None).
  assert (Hrun : forall fuel, exists m1 m2,
    name m1 = Some "Agent1" /\ name m2 = Some "Agent2"
    /\ run_loop wf env (S (S (S (S (S (S fuel))))))
         (mkLoop (mkRunState [human] END) 0 0 (Some RunSupervisor))
       = Finished (mkLoop (mkRunState [human; m1; m2] END) 5 3 None)).
  { intros fuel.
    (* supervisor: agent1 *)
    erewrite run_loop_step;
      [|reflexivity
       |eapply supervisor_tick; [by rewrite Hdecide|reflexivity|exact Hroute1]].
    cbn [state messages next app steps supervisor_calls arg_messages default].
    (* agent1 *)
    destruct (Hsession a1 (mkRunState [human] "agent1")) as (msgs1 & r1 & Hs1 & Hl1).
    erewrite run_loop_step; [|reflexivity|eapply agent_tick; [exact Hs1|exact Hl1]].
    cbn [state messages next app steps supervisor_calls]. rewrite Hafter1, Hn1.
    set (m1 := HumanMessage (content r1) _).
    (* supervisor: agent2 *)
    erewrite run_loop_step;
      [|reflexivity
       |eapply supervisor_tick; [by rewrite Hdecide|reflexivity|exact Hroute2]].
    cbn [state messages next app steps supervisor_calls arg_messages default].
    (* agent2 *)
    destruct (Hsession a2 (mkRunState [human; m1] "agent2")) as (msgs2 & r2 & Hs2 & Hl2).
    erewrite run_loop_step; [|reflexivity|eapply agent_tick; [exact Hs2|exact Hl2]].
    cbn [state messages next app steps supervisor_calls]. rewrite Hafter2, Hn2.
    set (m2 := HumanMessage (content r2) _).
    (* supervisor: the terminal marker *)
    erewrite run_loop_step;
      [|reflexivity
       |eapply supervisor_tick; [by rewrite Hdecide|reflexivity|reflexivity]].
    cbn [state messages next app steps supervisor_calls arg_messages default].
    rewrite run_loop_done by reflexivity.
    exists m1, m2. repeat split. }
  destruct (ceiling (config wf)) as [|[|[|[|[|[|fuel]]]]]] eqn:Hc; try lia.
  destruct (Hrun fuel) as (m1 & m2 & Hname1 & Hname2 & Hfinal).
  clear Hceil.
  unfold execute, invoke. rewrite Hprompt, Hvalid, Hfresh, Hc.
  change (apply_update (default default_state None)
            (Some (initialState wf owner repo prNumber context)))
    with (mkRunState [human] END).
  rewrite Hfinal.
  exists (mkLoop (mkRunState [human; m1; m2] END) 5 3 None), m1, m2.
  repeat split; assumption.
Qed.

Lemma scenario_two_agents_then_end_witness :
  exists l m1 m2,
    (invoke two_agents (stub_env ["agent1"; "agent2"; END]) ∅
       (initialState two_agents "o" "r" 1 None) 100 "o/r#1").1 = Finished l
    /\ messages (state l) = [HumanMessage (Text "Review o/r#1") None; m1; m2]
    /\ next (state l) = END
    /\ (execute two_agents (stub_env ["agent1"; "agent2"; END]) new_instance
          "o" "r" 1 None).1 = Ok (Some m2).
Proof.
  destruct (scenario_two_agents_then_end two_agents
              (stub_env ["agent1"; "agent2"; END]) new_instance "o" "r" 1 None)
    as (l & m1 & m2 & Hrun & Hmsgs & _ & _ & _ & Hnext & _ & Hexec).
  - reflexivity.
  - reflexivity.
  - reflexivity.
  - reflexivity.
  - intros a st. eexists _, _. split; [reflexivity|apply last_snoc].
  - unfold ceiling. simpl. lia.
  - reflexivity.
  - exists l, m1, m2. repeat split; assumption.
Defined.

(** ** Destinations outside the legal set *)

Section Routing.
Context {TContext : Type}.
Variable wf : Subclass TContext.
Variable env : Collaborators.

Lemma find_agent_name (d : string) (a : AgentConfig) :
  find_agent wf d = Some a -> a ∈ getAgentConfigs wf /\ agent_name a = d.
Proof.
  unfold find_agent. intros Hfind. apply find_some in Hfind as [Hin Heq].
  split; [by apply list_elem_of_In|by apply String.eqb_eq].
Qed.

Lemma illegal_names_no_agent (d : string) :
  agents_are_members wf -> legal (config wf) d = false ->
  find_agent wf d = None.
Proof.
  intros Hagents Hillegal.
  destruct (find_agent wf d) as [a|] eqn:Hfind; [|reflexivity].
  apply find_agent_name in Hfind as [Hin Hname].
  unfold agents_are_members in Hagents.
  rewrite Forall_forall in Hagents. specialize (Hagents a Hin).
  unfold legal, options in Hillegal.
  apply bool_decide_eq_false_1 in Hillegal.
  exfalso. apply Hillegal. rewrite <- Hname. apply elem_of_cons. by right.
Qed.

Lemma illegal_not_end (d : string) :
  legal (config wf) d = false -> String.eqb d END = false.
Proof.
  intros Hillegal. apply String.eqb_neq. intros ->.
  unfold legal, options in Hillegal.
  apply bool_decide_eq_false_1 in Hillegal.
  apply Hillegal. apply elem_of_cons. by left.
Qed.

End Routing.

Lemma concrete_workflows_agents_are_members :
  (forall p f, agents_are_members (InitialCodeReviewService p f)
               /\ valid_graph (InitialCodeReviewService p f) = true)
  /\ (forall (C : Type) p (f : string -> string -> nat -> option C -> string),
         agents_are_members (InteractivePRAssistant p f)
         /\ valid_graph (InteractivePRAssistant p f) = true).
Proof.
  split; [intros p f|intros C p f]; (split; [|reflexivity]);
    unfold agents_are_members; by apply (bool_decide_unpack _).
Qed.

(** C1, as the code has it. When the supervisor's reply names a destination
    [d] outside the legal set, nothing validates it and no routing error is
    raised: [d] is written to [next] as it is and no agent is run for it;
    the messages change only by what the reply carries under [messages].
    If [d] is neither empty nor the supervisor's own name, the run ends at
    that step, exactly as after a terminal decision: without error when the
    step is not the last one the ceiling allows, and with the engine's
    recursion-limit error when it is. An empty [d] makes the engine throw
    its generic branch error; [supervisor] makes the supervisor run once
    more. *)
Theorem illegal_destination_ends_run {TContext : Type}
    (wf : Subclass TContext) (env : Collaborators) (l : Loop)
    (call : ToolCall) (rest : list ToolCall) (d : string) (fuel : nat) :
  agents_are_members wf ->
  pending l = Some RunSupervisor ->
  decide env (supervisor_calls l) (state l) = Ok (mkChunk (call :: rest)) ->
  arg_next call = Some d ->
  legal (config wf) d = false ->
  let decided dest :=
    mkLoop
      (mkRunState (messages (state l) ++ default [] (arg_messages call)) dest)
      (S (steps l)) (S (supervisor_calls l)) in
  (d <> "" -> d <> "supervisor" ->
   tick wf env l RunSupervisor = Ok (decided d None)
   /\ run_loop wf env (S (S fuel)) l = Finished (decided d None)
   /\ run_loop wf env 1 l = Aborted GraphRecursionError (decided d None)
   /\ forall env',
        decide env' (supervisor_calls l) (state l)
        = Ok (mkChunk (mkToolCall (tc_name call) (Some END) (arg_messages call)
                         :: rest)) ->
        run_loop wf env' (S (S fuel)) l = Finished (decided END None)
        /\ run_loop wf env' 1 l = Aborted GraphRecursionError (decided END None)
        /\ returned (run_loop wf env (S fuel) l)
           = returned (run_loop wf env' (S fuel) l))
  /\ (d = "" ->
      run_loop wf env (S fuel) l
      = Aborted (Error "Branch condition returned unknown or null destination")
          (started l RunSupervisor))
  /\ (d = "supervisor" ->
      run_loop wf env (S fuel) l
      = run_loop wf env fuel (decided d (Some RunSupervisor))).
Proof.
  intros Hagents Hp Hdecide Hnext Hillegal decided.
  pose proof (illegal_names_no_agent wf d Hagents Hillegal) as Hnone.
  pose proof (illegal_not_end wf d Hillegal) as Hend.
  split; [|split].
  - intros Hne Hsup.
    assert (Htick : tick wf env l RunSupervisor = Ok (decided d None)).
    { eapply supervisor_tick; eauto.
      unfold route. rewrite Hend, Hnone.
      apply String.eqb_neq in Hne, Hsup. by rewrite Hne, Hsup. }
    assert (Hruns : forall k,
      run_loop wf env (S k) l
      = match k with
        | 0 => Aborted GraphRecursionError (decided d None)
        | S _ => Finished (decided d None)
        end).
    { intros k. rewrite (run_loop_step wf env k l _ _ Hp Htick).
      destruct k; [reflexivity|by apply run_loop_done]. }
    split; [exact Htick|]. split; [apply (Hruns (S fuel))|].
    split; [apply (Hruns 0)|].
    intros env' Hdecide'.
    assert (Htick' : tick wf env' l RunSupervisor = Ok (decided END None)).
    { exact (supervisor_tick wf env' l
               (mkToolCall (tc_name call) (Some END) (arg_messages call)) rest
               END None Hdecide' eq_refl eq_refl). }
    assert (Hruns' : forall k,
      run_loop wf env' (S k) l
      = match k with
        | 0 => Aborted GraphRecursionError (decided END None)
        | S _ => Finished (decided END None)
        end).
    { intros k. rewrite (run_loop_step wf env' k l _ _ Hp Htick').
      destruct k; [reflexivity|by apply run_loop_done]. }
    split; [apply (Hruns' (S fuel))|]. split; [apply (Hruns' 0)|].
    rewrite Hruns, Hruns'. by destruct fuel.
  - intros ->. cbn [run_loop]. rewrite Hp.
    unfold tick, supervisorNode. rewrite Hdecide. simpl.
    unfold next_reducer. rewrite Hnext. reflexivity.
  - intros ->.
    erewrite run_loop_step; [reflexivity|exact Hp|].
    eapply supervisor_tick; eauto.
Qed.

Lemma illegal_destination_ends_run_witness :
  let start :=
    mkLoop (mkRunState [HumanMessage (Text "Review o/r#1") None] END)
      0 0 (Some RunSupervisor) in
  run_loop two_agents (stub_env ["bogus"]) 100 start
  = Finished
      (mkLoop (mkRunState [HumanMessage (Text "Review o/r#1") None] "bogus")
         1 1 None)
  /\ run_loop two_agents (stub_env ["bogus"]) 1 start
     = Aborted GraphRecursionError
         (mkLoop (mkRunState [HumanMessage (Text "Review o/r#1") None] "bogus")
            1 1 None).
Proof.
  intros start.
  destruct (proj1
    (illegal_destination_ends_run two_agents (stub_env ["bogus"]) start
       (mkToolCall "route" (Some "bogus") None) [] "bogus" 98
       ltac:(unfold agents_are_members; by apply (bool_decide_unpack _))
       eq_refl eq_refl eq_refl eq_refl))
    as (_ & Hfinished & Haborted & _); [discriminate|discriminate|].
  split; [exact Hfinished|exact Haborted].
Defined.

(** C1 as stated does not hold: with members agent1 and agent2, a reply that
    names [bogus] (not a legal destination) does not fail the run. The
    supervisor node hands the name over as its update and the reducer stores
    it; the run finishes, [next] holds the illegal name, and [execute]
    returns the same message as when the oracle selects the terminal marker. *)
Lemma illegal_destination_not_rejected :
  let human := HumanMessage (Text "Review o/r#1") None in
  legal (config two_agents) "bogus" = false
  /\ prompt_partial (config two_agents) = Ok tt
  /\ valid_graph two_agents = true
  /\ supervisorNode (stub_env ["bogus"]) 0 (mkRunState [human] END)
     = Ok (Some (mkUpdate None (Some "bogus")))
  /\ apply_update (mkRunState [human] END) (Some (mkUpdate None (Some "bogus")))
     = mkRunState [human] "bogus"
  /\ (invoke two_agents (stub_env ["bogus"]) ∅
        (initialState two_agents "o" "r" 1 None) (ceiling (config two_agents))
        "o/r#1").1
     = Finished (mkLoop (mkRunState [human] "bogus") 1 1 None)
  /\ (execute two_agents (stub_env ["bogus"]) new_instance "o" "r" 1 None).1
     = Ok (Some human)
  /\ (execute two_agents (stub_env ["bogus"]) new_instance "o" "r" 1 None).1
     = (execute two_agents (stub_env [END]) new_instance "o" "r" 1 None).1.
Proof. repeat split. Qed.

(** ** What runs of one workflow object share *)

Section Sharing.
Context {TContext : Type}.
Variable wf : Subclass TContext.
Variable env : Collaborators.

(** A run reads the checkpointer only at its own thread. *)
Lemma invoke_reads_own_thread (cp cp' : gmap string RunState)
    (input : Update) (limit : nat) (thread : string) :
  cp !! thread = cp' !! thread ->
  (invoke wf env cp input limit thread).1 = (invoke wf env cp' input limit thread).1.
Proof. intros Heq. unfold invoke. simpl. by rewrite Heq. Qed.

(** A run writes the checkpointer only at its own thread. *)
Lemma invoke_writes_own_thread (cp : gmap string RunState)
    (input : Update) (limit : nat) (thread other : string) :
  other <> thread ->
  (invoke wf env cp input limit thread).2 !! other = cp !! other.
Proof. intros Hne. unfold invoke. simpl. by rewrite lookup_insert_ne. Qed.

Lemma invoke_saves_final_state (cp : gmap string RunState)
    (input : Update) (limit : nat) (thread : string) :
  (invoke wf env cp input limit thread).2 !! thread
  = Some (state (loop_of (invoke wf env cp input limit thread).1)).
Proof. unfold invoke. simpl. by rewrite lookup_insert_eq. Qed.

End Sharing.

(** C6, as the code has it. The [store] and the [checkpointer] are created
    once for the workflow object, by the constructor, and every call of
    [execute] compiles its graph on them, keyed by the thread identifier
    owner/repo#number. A run leaves the store and the checkpoints of all
    other threads untouched, and its result depends on the object only
    through the checkpoint saved under its own thread; once the prompt and
    the graph are accepted, that checkpoint is the state the previous run on
    the thread ended in, and the next run on the thread starts from it.
    When the prompt or the graph is refused, [execute] throws and saves
    nothing. *)
Theorem runs_share_their_thread_only {TContext : Type}
    (wf : Subclass TContext) (env : Collaborators) (this : Instance)
    (owner repo : string) (prNumber : nat) (context : option TContext) :
  let thread := thread_id owner repo prNumber in
  let run := execute wf env this owner repo prNumber context in
  store run.2 = store this
  /\ (forall other, other <> thread ->
        checkpointer run.2 !! other = checkpointer this !! other)
  /\ (forall that : Instance,
        checkpointer that !! thread = checkpointer this !! thread ->
        (execute wf env that owner repo prNumber context).1 = run.1)
  /\ (prompt_partial (config wf) = Ok tt -> valid_graph wf = true ->
      checkpointer run.2 !! thread
      = Some (state (loop_of
           (run_loop wf env (ceiling (config wf))
              (mkLoop
                 (apply_update (default default_state (checkpointer this !! thread))
                    (Some (initialState wf owner repo prNumber context)))
                 0 0 (Some RunSupervisor))))))
  /\ (prompt_partial (config wf) <> Ok tt \/ valid_graph wf = false ->
      checkpointer run.2 = checkpointer this /\ exists e, run.1 = Throw e).
Proof.
  intros thread run. subst run thread.
  destruct (execute_cases wf env) as [[Hprompt Hvalid]|(e & Hwhy & Hthrow)].
  - rewrite execute_unfold by done. cbn [fst snd store checkpointer].
    split; [reflexivity|]. split; [|split; [|split]].
    + intros other Hne. by apply invoke_writes_own_thread.
    + intros that Heq. rewrite execute_unfold by done. cbn [fst snd].
      by rewrite (invoke_reads_own_thread wf env _ _ _ _ _ Heq).
    + intros _ _. by rewrite invoke_saves_final_state.
    + intros [Hno|Hno]; [done|congruence].
  - rewrite !Hthrow. cbn [fst snd store checkpointer].
    split; [reflexivity|]. split; [done|]. split; [|split].
    + intros that _. by rewrite Hthrow.
    + intros Hprompt Hvalid.
      destruct Hwhy as [Hwhy|[Hwhy _]]; congruence.
    + intros _. split; [reflexivity|by exists e].
Qed.

(** C6 as stated does not hold: two executions of the same workflow object
    for the same pull request share the checkpointer, and the second one
    starts from the state the first one saved. Here the prompt and the graph
    are accepted, and the agent reports how many messages it was given: one
    in the first run, three in the second (the first run's two messages and
    the new human message), so the two runs return different messages, and
    the state saved after the second run holds the messages of both. *)
Lemma second_run_sees_first_run :
  let env := stub_env ["agent1"; END] in
  let first := execute one_agent env new_instance "o" "r" 1 None in
  let second := execute one_agent env first.2 "o" "r" 1 None in
  constructor (config one_agent) = Ok new_instance
  /\ prompt_partial (config one_agent) = Ok tt
  /\ first.1 = Ok (Some (HumanMessage (Text "agent1:1") (Some "Agent1")))
  /\ checkpointer first.2 !! "o/r#1"
     = Some (mkRunState [HumanMessage (Text "Review o/r#1") None;
                         HumanMessage (Text "agent1:1") (Some "Agent1")] END)
  /\ second.1 = Ok (Some (HumanMessage (Text "agent1:3") (Some "Agent1")))
  /\ second.1 <> first.1
  /\ (messages <$> checkpointer second.2 !! "o/r#1")
     = Some [HumanMessage (Text "Review o/r#1") None;
             HumanMessage (Text "agent1:1") (Some "Agent1");
             HumanMessage (Text "Review o/r#1") None;
             HumanMessage (Text "agent1:3") (Some "Agent1")].
Proof.
  vm_compute. repeat split; try reflexivity. discriminate.
Qed.

(** ** Determinism of runs *)

Section Determinism.
Context {TContext : Type}.
Variable wf : Subclass TContext.
Variable env : Collaborators.
Hypothesis Hstub : stub_collaborators env.

Lemma stub_agentNode (a : AgentConfig) (st1 st2 : RunState) :
  agentNode env a st1 = agentNode env a st2.
Proof.
  destruct Hstub as (_ & _ & Hanswer). specialize (Hanswer a st1 st2).
  unfold answer, agentNode in *.
  destruct (session env a st1) as [msgs1|e1], (session env a st2) as [msgs2|e2];
    simpl in *; try congruence.
  destruct (last msgs1) as [m1|], (last msgs2) as [m2|]; simpl in *;
    congruence.
Qed.

Lemma last_snoc_eq (xs ys : list BaseMessage) (m : BaseMessage) :
  last (messages_reducer xs [m]) = last (messages_reducer ys [m]).
Proof. unfold messages_reducer. by rewrite !last_snoc. Qed.

Lemma last_app_eq (xs ys y : list BaseMessage) :
  last xs = last ys ->
  last (messages_reducer xs y) = last (messages_reducer ys y).
Proof.
  intros Hlast. unfold messages_reducer.
  destruct y as [|m y _] using rev_ind; [by rewrite !app_nil_r|].
  by rewrite !app_assoc, !last_snoc.
Qed.

Lemma stub_tick (l1 l2 : Loop) (t : Task) :
  alike l1 l2 -> pending l1 = Some t ->
  match tick wf env l1 t, tick wf env l2 t with
  | Ok l1', Ok l2' => alike l1' l2'
  | Throw e1, Throw e2 => e1 = e2
  | _, _ => False
  end.
Proof.
  intros (Hsteps & Hcalls & Hpending & Hlast & Hnext) Hp.
  destruct Hstub as (Hdecide & Hnames & _).
  unfold tick. destruct t as [|a].
  - unfold supervisorNode. rewrite Hcalls.
    rewrite (Hdecide (supervisor_calls l2) (state l1) (state l2)).
    destruct (decide env (supervisor_calls l2) (state l2)) as [reply|e] eqn:Hreply;
      simpl; [|reflexivity].
    destruct (Hnames _ _ _ Hreply) as (call & rest & d & Hcall & Hd).
    unfold first_call_args. rewrite Hcall. simpl. rewrite Hd. simpl.
    destruct (route wf d) as [nxt|e]; simpl; [|reflexivity].
    unfold alike. simpl. rewrite Hsteps, Hcalls.
    repeat split; try done; try (by right).
    destruct (arg_messages call) as [y|]; [|exact Hlast].
    by apply last_app_eq.
  - rewrite (stub_agentNode a (state l1) (state l2)).
    destruct (agentNode env a (state l2)) as [upd|e] eqn:Hnode; simpl;
      [|reflexivity].
    destruct Hnext as [Hsup|Hnext]; [congruence|].
    unfold alike. simpl. rewrite Hsteps, Hcalls, Hnext.
    repeat split; try done; try (by right).
    unfold agentNode in Hnode.
    destruct (session env a (state l2)) as [msgs|?]; simpl in Hnode; [|done].
    destruct (last msgs); [|done]. injection Hnode as <-. simpl.
    apply last_snoc_eq.
Qed.

(** With stub collaborators, runs that start alike end alike: they return
    the same message or throw the same error. *)
Lemma stub_run_loop (fuel : nat) (l1 l2 : Loop) :
  alike l1 l2 ->
  returned (run_loop wf env fuel l1) = returned (run_loop wf env fuel l2).
Proof.
  revert l1 l2. induction fuel as [|fuel IH]; intros l1 l2 Halike;
    [reflexivity|].
  pose proof Halike as (_ & _ & Hpending & Hlast & _). simpl.
  rewrite <- Hpending. destruct (pending l1) as [t|] eqn:Hp; simpl.
  - pose proof (stub_tick l1 l2 t Halike Hp) as Htick.
    destruct (tick wf env l1 t) as [l1'|e1], (tick wf env l2 t) as [l2'|e2];
      try done.
    + by apply IH.
    + simpl. by rewrite Htick.
  - by rewrite Hlast.
Qed.

End Determinism.

(** C7. Two runs of a workflow with the same decision oracle and the same
    reasoning sessions, started with the same initial message, end alike,
    [execute] returning the same final message or throwing the same error,
    in each of two cases. First, the collaborators being any deterministic
    functions of what they are given, when the runs are independent of each
    other: they start from the same saved state under their threads (none,
    for runs on fresh workflow objects); their final run states are then
    equal too. Second, whatever state the runs start from (the second may
    even follow the first on the same object and thread), when the
    collaborators are stubs: an oracle replaying a fixed sequence of
    destinations and agents with fixed outputs. *)
Theorem independent_runs_agree {TContext : Type}
    (wf : Subclass TContext) (env : Collaborators) (this1 this2 : Instance)
    (owner1 repo1 owner2 repo2 : string) (pr1 pr2 : nat)
    (context1 context2 : option TContext) :
  createInitialMessage wf owner1 repo1 pr1 context1
    = createInitialMessage wf owner2 repo2 pr2 context2 ->
  let run1 := execute wf env this1 owner1 repo1 pr1 context1 in
  let run2 := execute wf env this2 owner2 repo2 pr2 context2 in
  (checkpointer this1 !! thread_id owner1 repo1 pr1
     = checkpointer this2 !! thread_id owner2 repo2 pr2 ->
   run1.1 = run2.1
   /\ (valid_graph wf = true ->
       checkpointer run1.2 !! thread_id owner1 repo1 pr1
       = checkpointer run2.2 !! thread_id owner2 repo2 pr2))
  /\ (stub_collaborators env -> run1.1 = run2.1).
Proof.
  intros Hmessage run1 run2. subst run1 run2.
  destruct (execute_cases wf env) as [[Hprompt Hvalid]|(e & _ & Hthrow)].
  - rewrite !execute_unfold by done. cbn [fst snd checkpointer]. split.
    + intros Hsaved. rewrite !invoke_saves_final_state.
      unfold invoke, initialState. cbn [fst]. rewrite Hmessage, Hsaved.
      split; [reflexivity|]. intros _. reflexivity.
    + intros Hstub. unfold invoke, initialState. cbn [fst].
      apply stub_run_loop; [exact Hstub|].
      unfold alike, apply_update, messages_reducer. cbn.
      rewrite Hmessage, !last_snoc. repeat split; try done. by left.
  - rewrite !Hthrow. cbn [fst snd checkpointer]. split; [|done].
    intros Hsaved. split; [reflexivity|]. intros _. exact Hsaved.
Qed.

Lemma independent_runs_agree_witness :
  let env := stub_env ["agent1"; "agent2"; END] in
  let busy :=
    mkInstance true ∅
      {[ "o/r#7" := mkRunState [HumanMessage (Text "earlier") None] END ]} in
  (execute two_agents env new_instance "o" "r" 1 None).1
  = (execute two_agents env busy "o" "r" 1 None).1
  /\ (execute two_agents env new_instance "o" "r" 1 None).1
     = Ok (Some (HumanMessage (Text "agent2:2") (Some "Agent2"))).
Proof.
  intros env busy. split; [|reflexivity].
  exact (proj1 (proj1 (independent_runs_agree two_agents env new_instance busy
                         "o" "r" "o" "r" 1 1 None None eq_refl) eq_refl)).
Defined.

(** With fixed agent outputs, running twice on the same object and thread
    returns the same message, although the second run starts from the
    state the first one saved. *)
Example stub_runs_twice :
  let env :=
    mkCollaborators (stub_oracle ["agent1"; END])
      (fun a _ => Ok [mkMessage AI (Text "done") None]) in
  let first := execute one_agent env new_instance "o" "r" 1 None in
  let second := execute one_agent env first.2 "o" "r" 1 None in
  first.1 = second.1
  /\ first.1 = Ok (Some (HumanMessage (Text "done") (Some "Agent1"))).
Proof. vm_compute. split; reflexivity. Qed.

(** ** Webhook signatures *)

Import GitHubService WebhookService.

(** C9. [verifyWebhookSignature] always returns a boolean, whatever the
    payload and the signature and whether or not computing the digest throws:
    when the signature and the expected [sha256=<digest>] string differ in
    byte length, [timingSafeEqual] throws a [RangeError], which is caught, and
    the result is [false]; with equal lengths the result is the comparison. *)
Theorem verifyWebhookSignature_total
    (hmac_sha256_hex : string -> string -> result string)
    (this : GitHubService) (payload signature : string) :
  (exists b, verifyWebhookSignature hmac_sha256_hex this payload signature = Ok b)
  /\ (forall digest,
        hmac_sha256_hex (webhookSecret this) payload = Ok digest ->
        (String.length signature <> String.length ("sha256=" ++ digest) ->
         (exists msg, timingSafeEqual signature ("sha256=" ++ digest)
                      = Throw (RangeError msg))
         /\ verifyWebhookSignature hmac_sha256_hex this payload signature = Ok false)
        /\ (String.length signature = String.length ("sha256=" ++ digest) ->
            verifyWebhookSignature hmac_sha256_hex this payload signature
            = Ok (String.eqb signature ("sha256=" ++ digest))))
  /\ (forall e,
        hmac_sha256_hex (webhookSecret this) payload = Throw e ->
        verifyWebhookSignature hmac_sha256_hex this payload signature = Ok false).
Proof.
  unfold verifyWebhookSignature, timingSafeEqual.
  split; [|split].
  - destruct (hmac_sha256_hex _ _) as [digest|e]; simpl; [|by eexists].
    destruct (Nat.eqb _ _); simpl; by eexists.
  - intros digest ->. simpl. split.
    + intros Hlen. apply Nat.eqb_neq in Hlen. rewrite Hlen. simpl.
      split; [by eexists|reflexivity].
    + intros Hlen. apply Nat.eqb_eq in Hlen. by rewrite Hlen.
  - intros e ->. reflexivity.
Qed.

(** C8. Once the services are initialised, a request whose headers have no
    [x-hub-signature-256] entry is accepted: [verifySignature] returns [true]
    whatever the body, the secret and the digest function, so nothing is
    verified. The digest is consulted only for a request that carries the
    header (with a non-empty value), and then the answer is that of
    [verifyWebhookSignature] on the serialised body. *)
Theorem missing_signature_accepted {Body : Type}
    (stringify : Body -> string)
    (hmac_sha256_hex : string -> string -> result string)
    (this : WebhookService) (githubService : GitHubService) (req : Request Body) :
  currentServices this = Some githubService ->
  (headers req !! "x-hub-signature-256" = None ->
   verifySignature stringify hmac_sha256_hex this req = Ok true)
  /\ (forall signature,
        headers req !! "x-hub-signature-256" = Some signature ->
        signature <> "" ->
        verifySignature stringify hmac_sha256_hex this req
        = verifyWebhookSignature hmac_sha256_hex githubService
            (stringify (body req)) signature).
Proof.
  intros Hinit. unfold verifySignature. rewrite Hinit. split.
  - by intros ->.
  - intros signature -> Hne. by destruct signature.
Qed.

Lemma missing_signature_accepted_witness :
  verifySignature (fun b : string => b) (fun _ _ => Ok "00")
    (mkWebhookService (Some (mkGitHubService "secret" (Some "ai-code-reviewer"))))
    (mkRequest string {[ "x-github-event" := "issue_comment" ]} "{}")
  = Ok true.
Proof.
  refine (proj1 (missing_signature_accepted (fun b : string => b) (fun _ _ => Ok "00")
                   (mkWebhookService
                      (Some (mkGitHubService "secret" (Some "ai-code-reviewer"))))
                   (mkGitHubService "secret" (Some "ai-code-reviewer"))
                   (mkRequest string {[ "x-github-event" := "issue_comment" ]} "{}")
                   eq_refl) _).
  reflexivity.
Defined.

(** Without initialised services [verifySignature] throws. *)
Lemma verifySignature_uninitialised {Body : Type}
    (stringify : Body -> string) hmac_sha256_hex (req : Request Body) :
  verifySignature stringify hmac_sha256_hex (mkWebhookService None) req
  = Throw (Error "Services not initialized").
Proof. reflexivity. Qed.

(** ** Comments from bots *)

Lemma prefix_append (p b : string) : String.prefix p (p ++ b) = true.
Proof.
  induction p as [|c p IH]; simpl.
  - by destruct b.
  - destruct (ascii_dec c c); [exact IH|done].
Qed.

Lemma prefix_inv (p s : string) :
  String.prefix p s = true -> exists b, s = p ++ b.
Proof.
  revert s. induction p as [|c p IH]; intros s Hp.
  - by exists s.
  - destruct s as [|c' s]; simpl in Hp; [discriminate|].
    destruct (ascii_dec c c') as [->|]; [|discriminate].
    destruct (IH s Hp) as [b ->]. by exists b.
Qed.

Lemma includes_unfold (s pat : string) :
  includes s pat
  = if String.prefix pat s then true
    else match s with
         | EmptyString => false
         | String _ r => includes r pat
         end.
Proof. by destruct s. Qed.

Lemma includes_cons (c : ascii) (s pat : string) :
  includes (String c s) pat
  = if String.prefix pat (String c s) then true else includes s pat.
Proof. reflexivity. Qed.

(** [includes] is the substring test. *)
Lemma includes_spec (s pat : string) :
  includes s pat = true <-> exists a b, s = a ++ pat ++ b.
Proof.
  split.
  - induction s as [|c s IH]; rewrite includes_unfold.
    + destruct (String.prefix pat "") eqn:Hp; [|discriminate].
      intros _. apply prefix_inv in Hp as [b ->]. by exists "", b.
    + destruct (String.prefix pat (String c s)) eqn:Hp.
      * intros _. apply prefix_inv in Hp as [b Hb]. by exists "", b.
      * intros (a & b & ->)%IH. by exists (String c a), b.
  - intros (a & b & ->). induction a as [|c a IH].
    + rewrite includes_unfold.
      change ("" ++ pat ++ b) with (pat ++ b). by rewrite prefix_append.
    + change (String c a ++ pat ++ b) with (String c (a ++ pat ++ b)).
      rewrite includes_cons, IH. by destruct (String.prefix _ _).
Qed.

(** C10. [isCommentFromBot] answers [true] for every login that contains
    [bot] anywhere (the human login abbott among them), contains [[bot]],
    contains [github-actions] in any letter case, or is the configured bot
    username; and [handleIssueCommentEvent] does nothing at all for an issue
    comment by such a login: no workflow is run and no comment is posted,
    whatever the comment says. *)
Theorem bot_like_logins_are_skipped
    (githubService : GitHubService) (commentUser : string) :
  (exists a b, commentUser = a ++ "bot" ++ b)
  \/ (exists a b, commentUser = a ++ "[bot]" ++ b)
  \/ (exists a b, toLowerCase commentUser = a ++ "github-actions" ++ b)
  \/ (botUsername githubService = Some commentUser /\ commentUser <> "") ->
  isCommentFromBot githubService commentUser = true
  /\ isCommentFromBot githubService "abbott" = true
  /\ forall isBotMentioned extractCommand handleBotCommand event c,
       comment event = Some c ->
       login (user c) = commentUser ->
       handleIssueCommentEvent isBotMentioned extractCommand handleBotCommand
         githubService event = [].
Proof.
  intros Hbot.
  assert (Hskip : isCommentFromBot githubService commentUser = true).
  { unfold isCommentFromBot.
    destruct Hbot as [H|[H|[H|[Hname Hne]]]].
    - apply includes_spec in H. rewrite H, orb_true_r.
      by destruct (match botUsername githubService with Some _ => _ | None => _ end).
    - apply includes_spec in H. rewrite H.
      by destruct (match botUsername githubService with Some _ => _ | None => _ end).
    - apply includes_spec in H. rewrite H, !orb_true_r.
      by destruct (match botUsername githubService with Some _ => _ | None => _ end).
    - rewrite Hname, String.eqb_refl. by destruct commentUser. }
  split; [exact Hskip|]. split.
  - unfold isCommentFromBot.
    by destruct (match botUsername githubService with Some _ => _ | None => _ end).
  - intros isBotMentioned extractCommand handleBotCommand event c Hc Hlogin.
    unfold handleIssueCommentEvent. rewrite Hc.
    destruct (repository event); [|reflexivity].
    destruct (issue event) as [i|]; [|reflexivity].
    destruct (pull_request i); [|reflexivity].
    simpl. by rewrite Hlogin, Hskip.
Qed.

Lemma bot_like_logins_are_skipped_witness :
  let githubService := mkGitHubService "secret" (Some "ai-code-reviewer") in
  let event :=
    mkEvent "created" (Some (mkIssue 7 true))
      (Some (mkComment (mkUser "abbott") "@ai-code-reviewer explain this"))
      (Some (mkRepository "r" (mkUser "o"))) in
  isCommentFromBot githubService "abbott" = true
  /\ handleIssueCommentEvent (fun _ => true) (fun body => Some body)
       (fun _ _ _ _ _ => Ok "reply") githubService event = [].
Proof.
  intros githubService event.
  destruct (bot_like_logins_are_skipped githubService "abbott") as (Hskip & _ & Hhandler).
  - left. by exists "ab", "t".
  - split; [exact Hskip|]. by eapply Hhandler.
Defined.

(** The same comment by a login that is not bot-like does run the assistant. *)
Example human_mention_is_handled :
  handleIssueCommentEvent (fun _ => true) (fun body => Some body)
    (fun _ _ _ _ _ => Ok "reply")
    (mkGitHubService "secret" (Some "ai-code-reviewer"))
    (mkEvent "created" (Some (mkIssue 7 true))
       (Some (mkComment (mkUser "alice") "explain this"))
       (Some (mkRepository "r" (mkUser "o"))))
  = [HandleBotCommand "o" "r" 7 "explain this" "alice";
     CreatePRComment "o" "r" 7 "reply"].
Proof. reflexivity. Qed.

(** * Further properties of the workflow *)

Import RunFacts.

Section Runs.
Context {TContext : Type}.
Variable wf : Subclass TContext.
Variable env : Collaborators.

Lemma route_declared (d : string) (a : AgentConfig) :
  route wf d = Ok (Some (RunAgent a)) -> a ∈ getAgentConfigs wf.
Proof.
  unfold route.
  destruct (String.eqb d ""); [discriminate|].
  destruct (String.eqb d END); [discriminate|].
  destruct (String.eqb d "supervisor"); [discriminate|].
  destruct (find_agent wf d) as [a'|] eqn:Hfind; [|discriminate].
  intros [= <-]. by apply find_agent_name in Hfind as [? _].
Qed.

(** What one step does to the state: the supervisor appends what the
    oracle's reply carries under [messages], an agent leaves [next] and
    appends one message of its own. *)
Lemma tick_effect (l l' : Loop) (t : Task) :
  tick wf env l t = Ok l' ->
  steps l' = S (steps l)
  /\ match t with
     | RunSupervisor =>
         messages (state l') = (messages (state l) ++ reply_messages env l)%list
         /\ supervisor_calls l' = S (supervisor_calls l)
         /\ declared wf l'
     | RunAgent a =>
         next (state l') = next (state l)
         /\ supervisor_calls l' = supervisor_calls l
         /\ declared wf l'
         /\ exists m, messages (state l') = (messages (state l) ++ [m])%list
                      /\ kind m = Human
                      /\ name m = Some (formatAgentName (agent_name a))
     end.
Proof.
  unfold tick. destruct t as [|a].
  - destruct (supervisorNode env _ _) as [upd|e] eqn:Hnode; simpl; [|discriminate].
    destruct (route wf _) as [nxt|e] eqn:Hroute; simpl; [|discriminate].
    intros [= <-]. simpl. split; [reflexivity|]. split; [|split; [reflexivity|]].
    + unfold supervisorNode in Hnode. unfold reply_messages.
      destruct (decide env _ _) as [reply|?]; simpl in Hnode; [|discriminate].
      injection Hnode as <-. unfold first_call_args.
      destruct (tool_calls reply) as [|call rest]; simpl; [by rewrite app_nil_r|].
      destruct (arg_messages call); simpl; [reflexivity|by rewrite app_nil_r].
    + intros a Ha. simpl in Ha. subst nxt. by eapply route_declared.
  - unfold agentNode.
    destruct (session env a (state l)) as [msgs|e]; simpl; [|discriminate].
    destruct (last msgs) as [m|]; simpl; [|discriminate].
    intros [= <-]. simpl. split; [reflexivity|]. split; [reflexivity|].
    split; [reflexivity|]. split.
    + intros a' Ha'. simpl in Ha'. unfold after_agent in Ha'.
      by destruct (bool_decide _).
    + by eexists.
Qed.

Lemma routes_only_reply (l : Loop) :
  routes_only env -> reply_messages env l = [].
Proof.
  intros Honly. unfold reply_messages.
  destruct (decide env _ _) as [reply|] eqn:Hreply; [|reflexivity].
  destruct (tool_calls reply) as [|call rest] eqn:Hcalls; [reflexivity|].
  by rewrite (Honly _ _ _ _ _ Hreply Hcalls).
Qed.

Lemma reaches_added (l l' : Loop) :
  routes_only env -> declared wf l -> reaches wf env l l' ->
  exists added,
    messages (state l') = (messages (state l) ++ added)%list
    /\ Forall (authored wf) added
    /\ length added + supervisor_calls l' + steps l
       = supervisor_calls l + steps l'.
Proof.
  intros Honly Hdecl Hreach. induction Hreach as [l|l t l1 l2 Hp Htick Hreach IH].
  - exists []. rewrite app_nil_r. split; [reflexivity|]. split; [constructor|].
    simpl. lia.
  - apply tick_effect in Htick as [Hsteps Heffect]. destruct t as [|a].
    + destruct Heffect as (Hmsgs & Hcalls & Hdecl1).
      rewrite routes_only_reply, app_nil_r in Hmsgs by done.
      destruct (IH Hdecl1) as (added & Hall & Hauth & Hcount).
      exists added. rewrite <- Hmsgs. split; [exact Hall|]. split; [exact Hauth|]. lia.
    + destruct Heffect as (_ & Hcalls & Hdecl1 & m & Hmsgs & Hkind & Hname).
      destruct (IH Hdecl1) as (added & Hall & Hauth & Hcount).
      exists (m :: added). rewrite Hall, Hmsgs, <- app_assoc. split; [reflexivity|].
      split; [|simpl; lia].
      constructor; [|exact Hauth]. split; [exact Hkind|].
      exists a. split; [by apply Hdecl|exact Hname].
Qed.

(** A finished run passed through the state it ends in. *)
Lemma run_loop_finished_reaches (fuel : nat) (l l' : Loop) :
  run_loop wf env fuel l = Finished l' -> reaches wf env l l'.
Proof.
  revert l. induction fuel as [|fuel IH]; intros l; simpl.
  - discriminate.
  - destruct (pending l) as [t|] eqn:Hp; [|intros [= <-]; constructor].
    destruct (tick wf env l t) as [l1|e] eqn:Htick; [|discriminate].
    intros Hrun. eapply reaches_tick; eauto.
Qed.

Lemma reaches_trans (l1 l2 l3 : Loop) :
  reaches wf env l1 l2 -> reaches wf env l2 l3 -> reaches wf env l1 l3.
Proof.
  induction 1 as [l|l t l' l'' Hp Htick _ IH]; [done|].
  intros H23. eapply reaches_tick; eauto.
Qed.

(** A node that throws aborts the run with its error, at the state reached
    before it. *)
Lemma run_loop_throws (fuel : nat) (l l' : Loop) (t : Task) (e : Exn) :
  reaches wf env l l' -> pending l' = Some t -> tick wf env l' t = Throw e ->
  steps l' < steps l + fuel ->
  run_loop wf env fuel l = Aborted e (started l' t).
Proof.
  intros Hreach Hp Hthrow. revert fuel.
  induction Hreach as [l|l t0 l1 l2 Hp0 Htick Hreach IH]; intros fuel Hfuel.
  - destruct fuel as [|fuel]; [lia|]. simpl. by rewrite Hp, Hthrow.
  - pose proof (reaches_steps _ _ _ _ Hreach) as Hle.
    pose proof Htick as [Hs _]%tick_counts.
    destruct fuel as [|fuel]; [lia|]. simpl. rewrite Hp0, Htick.
    apply IH; [done|done|lia].
Qed.

End Runs.

(** X1. What a run adds to the history. A supervisor step appends what
    the oracle's reply carries under [messages] in its first tool call, and
    nothing else. With an oracle that keeps to routing (no reply carries
    messages), between two points of a run that starts at the supervisor (or
    at a declared agent) the messages added are exactly one per agent step,
    none for the supervisor's: their number is the number of steps that
    were not supervisor invocations, and each is a human-kind message under
    the formatted name of a declared agent. The same holds for the state a
    finished run ends in. *)
Theorem messages_are_agent_steps {TContext : Type}
    (wf : Subclass TContext) (env : Collaborators) (l l' : Loop) :
  declared wf l -> reaches wf env l l' ->
  (forall l1,
     tick wf env l' RunSupervisor = Ok l1 ->
     messages (state l1) = (messages (state l') ++ reply_messages env l')%list)
  /\ (routes_only env ->
      (exists added,
         messages (state l') = (messages (state l) ++ added)%list
         /\ Forall (authored wf) added
         /\ length added + supervisor_calls l' + steps l
            = supervisor_calls l + steps l')
      /\ (forall fuel l'',
            run_loop wf env fuel l' = Finished l'' ->
            exists added,
              messages (state l'') = (messages (state l) ++ added)%list
              /\ Forall (authored wf) added
              /\ length added + supervisor_calls l'' + steps l
                 = supervisor_calls l + steps l'')).
Proof.
  intros Hdecl Hreach. split.
  - intros l1 Htick. by apply tick_effect in Htick as (_ & Hmsgs & _).
  - intros Honly. split; [by apply (reaches_added wf env)|].
    intros fuel l'' Hrun. apply (reaches_added wf env); [done|done|].
    apply run_loop_finished_reaches in Hrun.
    by eapply reaches_trans.
Qed.

Lemma messages_are_agent_steps_witness :
  let start :=
    mkLoop (mkRunState [HumanMessage (Text "Review o/r#1") None] END)
      0 0 (Some RunSupervisor) in
  exists l added,
    run_loop two_agents (stub_env ["agent1"; "agent2"; END]) 100 start = Finished l
    /\ messages (state l) = (messages (state start) ++ added)%list
    /\ length added + supervisor_calls l + 0 = 0 + steps l.
Proof.
  intros start.
  assert (Honly : routes_only (stub_env ["agent1"; "agent2"; END])).
  { intros n st reply call rest Hreply Hcalls. simpl in Hreply.
    unfold stub_oracle in Hreply.
    destruct (["agent1"; "agent2"; END] !! n); [|discriminate].
    injection Hreply as <-. by injection Hcalls as <- _. }
  destruct (proj2 (proj2 (messages_are_agent_steps two_agents
                     (stub_env ["agent1"; "agent2"; END]) start start
                     ltac:(intros a; discriminate) (reaches_here _ _ _)) Honly)
              100 _ eq_refl) as (added & Hmsgs & _ & Hcount).
  eexists _, added. split; [reflexivity|]. split; [exact Hmsgs|exact Hcount].
Defined.

(** A reply that carries a message beside its destination: the supervisor
    step appends it to the history. *)
Example supervisor_reply_writes_messages :
  let note := mkMessage Plain (Text "note") None in
  let env :=
    mkCollaborators
      (fun _ _ => Ok (mkChunk [mkToolCall "route" (Some END) (Some [note])]))
      echo_session in
  (execute two_agents env new_instance "o" "r" 1 None).1 = Ok (Some note)
  /\ (messages <$> checkpointer
                     (execute two_agents env new_instance "o" "r" 1 None).2
                   !! "o/r#1")
     = Some [HumanMessage (Text "Review o/r#1") None; note].
Proof. split; reflexivity. Qed.

(** X2. Once the prompt and the graph are accepted, an error thrown by the
    decision oracle or by an agent aborts the run: [execute] throws that
    very error, and the state reached before the failing step, with the
    messages the run had produced, stays saved under the thread (the next
    run for the same pull request starts from it). *)
Theorem node_error_aborts_run {TContext : Type}
    (wf : Subclass TContext) (env : Collaborators) (this : Instance)
    (owner repo : string) (prNumber : nat) (context : option TContext)
    (l : Loop) (t : Task) (e : Exn) :
  let thread := thread_id owner repo prNumber in
  let start :=
    mkLoop
      (apply_update (default default_state (checkpointer this !! thread))
         (Some (initialState wf owner repo prNumber context)))
      0 0 (Some RunSupervisor) in
  let run := execute wf env this owner repo prNumber context in
  prompt_partial (config wf) = Ok tt ->
  valid_graph wf = true ->
  reaches wf env start l ->
  pending l = Some t ->
  tick wf env l t = Throw e ->
  steps l < ceiling (config wf) ->
  run.1 = Throw e
  /\ checkpointer run.2 !! thread = Some (state l)
  /\ messages (default default_state (checkpointer this !! thread))
       `prefix_of` messages (state l).
Proof.
  intros thread start run Hprompt Hvalid Hreach Hp Hthrow Hsteps. subst run.
  rewrite execute_unfold by done. cbn zeta. cbn [fst snd checkpointer].
  rewrite invoke_saves_final_state. unfold invoke. cbn [fst]. fold thread start.
  rewrite (run_loop_throws wf env _ start l t e Hreach Hp Hthrow) by (simpl; lia).
  repeat split.
  etrans; [|exact (reaches_prefix wf env _ _ Hreach)].
  apply (apply_update_prefix _ (Some _)).
Qed.

Lemma node_error_aborts_run_witness :
  let env := stub_env ["agent1"] in
  let run := execute two_agents env new_instance "o" "r" 1 None in
  run.1 = Throw (NodeError "no reply")
  /\ checkpointer run.2 !! "o/r#1"
     = Some (mkRunState [HumanMessage (Text "Review o/r#1") None;
                         HumanMessage (Text "agent1:1") (Some "Agent1")] "agent1").
Proof.
  intros env run.
  pose proof (node_error_aborts_run two_agents env new_instance "o" "r" 1 None
    (mkLoop (mkRunState [HumanMessage (Text "Review o/r#1") None;
                         HumanMessage (Text "agent1:1") (Some "Agent1")] "agent1")
       2 1 (Some RunSupervisor))
    RunSupervisor (NodeError "no reply") eq_refl eq_refl) as H.
  destruct H as (Hthrown & Hsaved & _).
  - eapply reaches_tick; [reflexivity|reflexivity|].
    eapply reaches_tick; [reflexivity|reflexivity|].
    apply reaches_here.
  - reflexivity.
  - reflexivity.
  - unfold ceiling. simpl. lia.
  - split; [exact Hthrown|exact Hsaved].
Defined.

(** X3. A reply of the oracle without a tool call updates nothing, so the
    run goes where [next] already points. On a thread with no saved state
    that is the default, the terminal marker: the run ends after that one
    supervisor step, and [execute] returns the initial human message,
    unless the recursion limit is 1, in which case that step was the last
    one allowed and [execute] throws the engine's recursion-limit error.
    After a member [d] was chosen and has run, it is [d] again: the same
    agent is run once more. *)
Theorem reply_without_tool_call {TContext : Type}
    (wf : Subclass TContext) (env : Collaborators) :
  prompt_partial (config wf) = Ok tt ->
  valid_graph wf = true ->
  (forall this owner repo prNumber context,
     checkpointer this !! thread_id owner repo prNumber = None ->
     decide env 0
       (mkRunState
          [HumanMessage (Text (createInitialMessage wf owner repo prNumber context)) None]
          END) = Ok (mkChunk []) ->
     (execute wf env this owner repo prNumber context).1
     = if Nat.eqb (ceiling (config wf)) 1 then Throw GraphRecursionError
       else Ok (Some (HumanMessage
                        (Text (createInitialMessage wf owner repo prNumber context))
                        None)))
  /\ (forall l d,
        pending l = Some RunSupervisor ->
        next (state l) = d -> d ∈ members (config wf) -> d <> "" ->
        decide env (supervisor_calls l) (state l) = Ok (mkChunk []) ->
        exists a,
          agent_name a = d
          /\ tick wf env l RunSupervisor
             = Ok (mkLoop (state l) (S (steps l)) (S (supervisor_calls l))
                     (Some (RunAgent a)))).
Proof.
  intros Hprompt Hvalid. split.
  - intros this owner repo prNumber context Hfresh Hreply.
    rewrite execute_unfold by done. unfold invoke. rewrite Hfresh. cbn [fst].
    change (apply_update (default default_state None)
              (Some (initialState wf owner repo prNumber context)))
      with (mkRunState
              [HumanMessage
                 (Text (createInitialMessage wf owner repo prNumber context)) None]
              END).
    pose proof (ceiling_positive (config wf)) as Hpos.
    destruct (ceiling (config wf)) as [|fuel]; [lia|].
    erewrite run_loop_step;
      [|reflexivity
       |unfold tick, supervisorNode; cbn [supervisor_calls state];
        rewrite Hreply; reflexivity].
    destruct fuel as [|fuel]; [reflexivity|].
    by rewrite run_loop_done.
  - intros l d Hp Hnext Hd Hne Hreply.
    destruct (route_member wf d Hvalid Hd Hne) as (a & Hroute & Hname).
    exists a. split; [exact Hname|].
    unfold tick, supervisorNode. rewrite Hreply. simpl. by rewrite Hnext, Hroute.
Qed.

Lemma reply_without_tool_call_witness :
  let silent := mkCollaborators (fun _ _ => Ok (mkChunk [])) echo_session in
  (execute two_agents silent new_instance "o" "r" 1 None).1
  = Ok (Some (HumanMessage (Text "Review o/r#1") None))
  /\ (execute (workflow_of ["agent1"; "agent2"] (Some 1)) silent new_instance
        "o" "r" 1 None).1
     = Throw GraphRecursionError.
Proof.
  intros silent. split.
  - exact (proj1 (reply_without_tool_call two_agents silent eq_refl eq_refl)
             new_instance "o" "r" 1 None eq_refl eq_refl).
  - exact (proj1 (reply_without_tool_call (workflow_of ["agent1"; "agent2"] (Some 1))
                    silent eq_refl eq_refl)
             new_instance "o" "r" 1 None eq_refl eq_refl).
Defined.

(** ** The prompt's variables *)

Lemma uses_spec (used : list string) (v : string) :
  uses used v = true <-> v ∈ used.
Proof.
  unfold uses. rewrite existsb_exists. split.
  - intros (x & Hin & Heq). apply String.eqb_eq in Heq. subst x.
    by apply list_elem_of_In.
  - intros Hin. exists v. split; [by apply list_elem_of_In|apply String.eqb_refl].
Qed.

(** X21. [execute] begins by filling the prompt's variables [options] and
    [members], and the prompt library refuses a variable that no message of
    the prompt uses. So, the templates being parsed, the prompt is accepted
    exactly when the system and human prompts together use both [{options}]
    and [{members}]; otherwise every call of [execute] throws, whatever the
    oracle and the agents (none is called), and leaves the store and the
    checkpointer as they are. *)
Theorem prompt_must_use_its_variables {TContext : Type}
    (wf : Subclass TContext) (sys hum : list string) :
  template_variables (systemPrompt (config wf)) = Ok sys ->
  template_variables (humanPrompt (config wf)) = Ok hum ->
  constructor (config wf) = Ok new_instance
  /\ (prompt_partial (config wf) = Ok tt
      <-> "options" ∈ (sys ++ hum)%list /\ "members" ∈ (sys ++ hum)%list)
  /\ (~ ("options" ∈ (sys ++ hum)%list /\ "members" ∈ (sys ++ hum)%list) ->
      exists msg,
        forall env this owner repo prNumber context,
          execute wf env this owner repo prNumber context
          = (Throw (Error msg), mkInstance true (store this) (checkpointer this))).
Proof.
  intros Hsys Hhum.
  assert (Hin : forall v, v <> "messages" ->
            uses (sys ++ ["messages"] ++ hum)%list v = true
            <-> v ∈ (sys ++ hum)%list).
  { intros v Hv. rewrite uses_spec, !elem_of_app, list_elem_of_singleton. tauto. }
  pose proof (Hin "options" ltac:(discriminate)) as Hoptions.
  pose proof (Hin "members" ltac:(discriminate)) as Hmembers.
  unfold constructor, execute, prompt_partial, setupPrompt.
  unfold template_variables in Hsys, Hhum. unfold template_variables.
  rewrite Hsys, Hhum. cbn [mbind result_bind List.filter].
  destruct (uses (sys ++ ["messages"] ++ hum)%list "options") eqn:Ho,
           (uses (sys ++ ["messages"] ++ hum)%list "members") eqn:Hm;
    cbn [negb]; (split; [reflexivity|]).
  - split; [split; [intros _; split; [by apply Hoptions|by apply Hmembers]|done]|].
    intros Hno. destruct Hno. split; [by apply Hoptions|by apply Hmembers].
  - split; [split; [discriminate|]|by eexists].
    intros [_ H]. apply Hmembers in H. discriminate.
  - split; [split; [discriminate|]|by eexists].
    intros [H _]. apply Hoptions in H. discriminate.
  - split; [split; [discriminate|]|by eexists].
    intros [H _]. apply Hoptions in H. discriminate.
Qed.

Lemma prompt_must_use_its_variables_witness :
  exists msg,
    forall env this,
      execute no_options env this "o" "r" 1 None
      = (Throw (Error msg), mkInstance true (store this) (checkpointer this)).
Proof.
  destruct (prompt_must_use_its_variables no_options ["members"] []
              eq_refl eq_refl) as (_ & _ & Hthrows).
  destruct Hthrows as [msg Hmsg].
  - intros [Hoptions _]. revert Hoptions. by apply (bool_decide_unpack _).
  - exists msg. intros env this. apply Hmsg.
Defined.

(** Braces doubled are text, not variables; a brace left open is refused. *)
Example template_variables_braces :
  template_variables "Pick {options} for {{members}} of {team}"
  = Ok ["options"; "team"]
  /\ template_variables "Pick {options" = Throw (Error "Unclosed '{' in template.").
Proof. split; reflexivity. Qed.

(** ** Thread identifiers *)

Lemma includes_char_cons (c c' : ascii) (s : string) :
  includes (String c' s) (String c "") = false ->
  c' <> c /\ includes s (String c "") = false.
Proof.
  rewrite includes_cons. simpl.
  destruct (ascii_dec c c') as [->|Hne].
  - by destruct s.
  - intros H. split; [congruence|exact H].
Qed.

(** A string is cut in one way only at the first occurrence of a character. *)
Lemma cut_at_char (c : ascii) (a a' b b' : string) :
  includes a (String c "") = false -> includes a' (String c "") = false ->
  a ++ String c b = a' ++ String c b' -> a = a' /\ b = b'.
Proof.
  revert a'. induction a as [|x a IH]; intros [|x' a'] Ha Ha' Heq; simpl in Heq.
  - by injection Heq as ->.
  - injection Heq as -> _. by apply includes_char_cons in Ha' as [? _].
  - injection Heq as -> _. by apply includes_char_cons in Ha as [? _].
  - injection Heq as -> Heq.
    apply includes_char_cons in Ha as [_ Ha].
    apply includes_char_cons in Ha' as [_ Ha'].
    destruct (IH a' Ha Ha' Heq) as [-> ->]. done.
Qed.

Lemma thread_id_inj (owner1 repo1 owner2 repo2 : string) (pr1 pr2 : nat) :
  includes owner1 "/" = false -> includes owner2 "/" = false ->
  includes repo1 "#" = false -> includes repo2 "#" = false ->
  thread_id owner1 repo1 pr1 = thread_id owner2 repo2 pr2 ->
  owner1 = owner2 /\ repo1 = repo2 /\ pr1 = pr2.
Proof.
  intros Ho1 Ho2 Hr1 Hr2 Heq. unfold thread_id in Heq.
  change ("/" ++ ?x) with (String "/" x) in Heq.
  apply cut_at_char in Heq as [-> Heq]; [|done|done].
  change ("#" ++ ?x) with (String "#" x) in Heq.
  apply cut_at_char in Heq as [-> Heq]; [|done|done].
  by apply (inj pretty) in Heq as ->.
Qed.

(** X4. Thread identifiers tell pull requests apart: when owners contain no
    [/] and repository names no [#], two different pull requests have
    different thread identifiers, and a run for one of them leaves the state
    saved for the other untouched. *)
Theorem distinct_pull_requests_do_not_share {TContext : Type}
    (wf : Subclass TContext) (env : Collaborators) (this : Instance)
    (owner1 repo1 owner2 repo2 : string) (pr1 pr2 : nat)
    (context : option TContext) :
  includes owner1 "/" = false -> includes owner2 "/" = false ->
  includes repo1 "#" = false -> includes repo2 "#" = false ->
  (owner1, repo1, pr1) <> (owner2, repo2, pr2) ->
  thread_id owner1 repo1 pr1 <> thread_id owner2 repo2 pr2
  /\ checkpointer (execute wf env this owner1 repo1 pr1 context).2
       !! thread_id owner2 repo2 pr2
     = checkpointer this !! thread_id owner2 repo2 pr2.
Proof.
  intros Ho1 Ho2 Hr1 Hr2 Hne.
  assert (Hthreads : thread_id owner1 repo1 pr1 <> thread_id owner2 repo2 pr2).
  { intros Heq. apply thread_id_inj in Heq as (-> & -> & ->); done. }
  split; [exact Hthreads|].
  destruct (execute_cases wf env) as [[Hprompt Hvalid]|(e & _ & Hthrow)].
  - rewrite execute_unfold by done. cbn zeta. cbn [snd checkpointer].
    by apply invoke_writes_own_thread.
  - by rewrite Hthrow.
Qed.

Lemma distinct_pull_requests_do_not_share_witness :
  let env := stub_env ["agent1"; END] in
  let first := execute one_agent env new_instance "o" "r" 1 None in
  checkpointer (execute one_agent env first.2 "o" "r" 2 None).2 !! "o/r#1"
  = checkpointer first.2 !! "o/r#1".
Proof.
  intros env first.
  refine (proj2 (distinct_pull_requests_do_not_share one_agent env first.2
                   "o" "r" "o" "r" 2 1 None eq_refl eq_refl eq_refl eq_refl _)).
  discriminate.
Defined.

(** Without the proviso thread identifiers can collide. *)
Example thread_id_collision : thread_id "a/b" "c" 1 = thread_id "a" "b/c" 1.
Proof. reflexivity. Qed.

(** ** Signatures that are accepted *)

(** X5. [verifyWebhookSignature] answers [true] exactly when the digest
    can be computed and the signature is the string [sha256=] followed by
    that digest; in every other case it answers [false]. *)
Theorem signature_accepted_iff
    (hmac_sha256_hex : string -> string -> result string)
    (this : GitHubService.GitHubService) (payload signature : string) :
  (GitHubService.verifyWebhookSignature hmac_sha256_hex this payload signature
   = Ok true
   <-> exists digest,
         hmac_sha256_hex (GitHubService.webhookSecret this) payload = Ok digest
         /\ signature = "sha256=" ++ digest)
  /\ (GitHubService.verifyWebhookSignature hmac_sha256_hex this payload signature
      <> Ok true ->
      GitHubService.verifyWebhookSignature hmac_sha256_hex this payload signature
      = Ok false).
Proof.
  unfold GitHubService.verifyWebhookSignature, GitHubService.timingSafeEqual.
  destruct (hmac_sha256_hex _ payload) as [digest|e]; simpl.
  - destruct (Nat.eqb _ _) eqn:Hlen; simpl.
    + destruct (String.eqb signature ("sha256=" ++ digest)) eqn:Heq.
      * apply String.eqb_eq in Heq. split; [|done].
        split; [intros _; by exists digest|done].
      * apply String.eqb_neq in Heq. split; [|done].
        split; [done|]. intros (d & [= <-] & ->). done.
    + split; [|done]. split; [done|].
      intros (d & [= <-] & ->). by rewrite Nat.eqb_refl in Hlen.
  - split; [|done]. split; [done|]. by intros (d & ? & _).
Qed.

(** * Properties of the configuration *)

Import Configuration.

(** X6. The configuration loads exactly when the three required variables
    are set and not empty. It then holds their values, its application name
    is the variable's or, when that is unset or empty, ai-code-reviewer
    (never empty), and [validateConfiguration] accepts it. *)
Theorem configuration_loads_iff (env : ProcessEnv) :
  ((exists config, loadAndValidateConfiguration env = Ok config)
   <-> is_set (GITHUB_APP_ID env) = true
       /\ is_set (GITHUB_PRIVATE_KEY_PATH env) = true
       /\ is_set (GITHUB_WEBHOOK_SECRET env) = true)
  /\ (forall config,
        loadAndValidateConfiguration env = Ok config ->
        Some (appId config) = GITHUB_APP_ID env
        /\ Some (privateKeyPath config) = GITHUB_PRIVATE_KEY_PATH env
        /\ Some (webhookSecret config) = GITHUB_WEBHOOK_SECRET env
        /\ appName config = or_else (GITHUB_APP_NAME env) "ai-code-reviewer"
        /\ appName config <> ""
        /\ validateConfiguration config = Ok tt).
Proof.
  unfold loadAndValidateConfiguration, missingVars.
  destruct env as [a k w n]. cbn [GITHUB_APP_ID GITHUB_PRIVATE_KEY_PATH
    GITHUB_WEBHOOK_SECRET GITHUB_APP_NAME].
  destruct (is_set a) eqn:Ha, (is_set k) eqn:Hk, (is_set w) eqn:Hw; simpl;
    try (split; [split; [by intros [? ?]|by intros (? & ? & ?)]|done]).
  split; [split; [done|by eexists]|].
  intros config [= <-]. unfold validateConfiguration. simpl.
  destruct a as [a|], k as [k|], w as [w|]; simpl in *; try done.
  rewrite Ha, Hk, Hw. repeat split; rewrite ?Ha, ?Hk, ?Hw; try done.
  destruct n as [[|c n]|]; simpl; done.
Qed.

(** X7. When the configuration does not load, the error names, after a
    fixed prefix and separated by commas, exactly the required variables
    that are unset or empty, in the order application id, key path, secret;
    none is named when it is set. *)
Theorem missing_variables_are_named (env : ProcessEnv) (e : Exn) :
  loadAndValidateConfiguration env = Throw e ->
  e = Error ("❌ Missing required environment variables: "
             ++ join ", " (missingVars env))
  /\ missingVars env <> []
  /\ ("GITHUB_APP_ID" ∈ missingVars env <-> is_set (GITHUB_APP_ID env) = false)
  /\ ("GITHUB_PRIVATE_KEY_PATH" ∈ missingVars env
      <-> is_set (GITHUB_PRIVATE_KEY_PATH env) = false)
  /\ ("GITHUB_WEBHOOK_SECRET" ∈ missingVars env
      <-> is_set (GITHUB_WEBHOOK_SECRET env) = false)
  /\ missingVars env
     = filter (fun v => v ∈ missingVars env)
         ["GITHUB_APP_ID"; "GITHUB_PRIVATE_KEY_PATH"; "GITHUB_WEBHOOK_SECRET"].
Proof.
  unfold loadAndValidateConfiguration.
  destruct (0 <? length (missingVars env))%nat eqn:Hlen; [|discriminate].
  intros [= <-]. split; [reflexivity|]. split.
  { intros Hnil. rewrite Hnil in Hlen. discriminate. }
  clear Hlen. unfold missingVars.
  destruct (is_set (GITHUB_APP_ID env)), (is_set (GITHUB_PRIVATE_KEY_PATH env)),
    (is_set (GITHUB_WEBHOOK_SECRET env)); simpl;
    repeat split; try done;
    first [ intros _; by apply (bool_decide_unpack _)
          | intros Hin; exfalso; revert Hin; by apply (bool_decide_unpack _) ].
Qed.

Lemma missing_variables_are_named_witness :
  let env := mkProcessEnv (Some "1") None (Some "") None in
  Error "❌ Missing required environment variables: GITHUB_PRIVATE_KEY_PATH, GITHUB_WEBHOOK_SECRET"
  = Error ("❌ Missing required environment variables: " ++ join ", " (missingVars env))
  /\ missingVars env <> [].
Proof.
  intros env.
  destruct (missing_variables_are_named env _ eq_refl) as (Hmessage & Hmissing & _).
  split; [exact Hmessage|exact Hmissing].
Defined.

(** * Properties of the webhook application *)

Import GitHubService WebhookService App AppScenario.

Lemma generateCacheKey_inj (a b : nat) :
  generateCacheKey a = generateCacheKey b -> a = b.
Proof.
  unfold generateCacheKey. intros Heq.
  change ("app-" ++ ?x) with (String "a" (String "p" (String "p" (String "-" x))))
    in Heq.
  injection Heq as Heq. by apply (inj pretty) in Heq.
Qed.

Section Service.
Variable config : GitHubConfiguration.
Variable ext : Externals.

Lemma created_for_installation (id : nat) (i : GitHubServiceInstances) :
  createServiceInstances config ext id = Ok i ->
  installation i = id
  /\ githubService i
     = mkGitHubService (Configuration.webhookSecret config) (Some (appName config)).
Proof.
  unfold createServiceInstances.
  destruct (readFileSync ext _); simpl; [|discriminate].
  destruct (loadPrompts ext); simpl; [|discriminate].
  by intros [= <-].
Qed.

(** The factory keeps the cache coherent and hands out the bundle of the
    installation asked for. *)
Lemma getServiceInstances_coherent (cache : gmap string GitHubServiceInstances)
    (id : nat) :
  (forall k i, cache !! generateCacheKey k = Some i -> installation i = k) ->
  let run := getServiceInstances config ext cache id in
  (forall k i, run.2 !! generateCacheKey k = Some i -> installation i = k)
  /\ (forall i, instances run.1 = Some i -> installation i = id).
Proof.
  intros Hcache. unfold getServiceInstances.
  destruct (cache !! generateCacheKey id) as [cached|] eqn:Hlookup; simpl.
  - split; [exact Hcache|]. intros i [= <-]. by apply Hcache.
  - destruct (createServiceInstances config ext id) as [created|e] eqn:Hcreate; simpl.
    + apply created_for_installation in Hcreate as [Hid _].
      split; [|by intros i [= <-]].
      intros k i. destruct (Nat.eq_dec k id) as [->|Hne].
      * rewrite lookup_insert_eq. by intros [= <-].
      * rewrite lookup_insert_ne; [apply Hcache|].
        intros Heq. by apply generateCacheKey_inj in Heq.
    + split; [exact Hcache|discriminate].
Qed.

Lemma ensureInitialized_coherent (st : State) (req : Request Payload) :
  coherent st ->
  let run := ensureInitialized config ext st req in
  coherent run.2
  /\ (run.1 = Ok tt ->
      exists id i,
        installation_of req = Some id
        /\ currentServices run.2 = Some i
        /\ currentInstallationId run.2 = Some id
        /\ isInitialized run.2 = true
        /\ installation i = id).
Proof.
  intros [Hcache Hcurrent]. unfold ensureInitialized.
  destruct (installation_of req) as [id|]; simpl; [|by split].
  assert (Hfetch :
    let run :=
      (let '(res, cache) :=
         getServiceInstances config ext (serviceInstances st) id in
       match init_success res, instances res with
       | true, Some found => (Ok tt, mkState cache (Some found) (Some id) true)
       | _, _ =>
           (Throw (default (Error "Failed to initialize GitHub services")
                     (init_error res)),
            mkState cache (currentServices st) (currentInstallationId st)
              (isInitialized st))
       end) in
    coherent run.2
    /\ (run.1 = Ok tt ->
        exists id' i,
          Some id = Some id' /\ currentServices run.2 = Some i
          /\ currentInstallationId run.2 = Some id'
          /\ isInitialized run.2 = true /\ installation i = id')).
  { pose proof (getServiceInstances_coherent (serviceInstances st) id Hcache)
      as [Hc Hi].
    destruct (getServiceInstances config ext (serviceInstances st) id)
      as [res cache]. simpl in Hc, Hi.
    destruct (init_success res), (instances res) as [found|]; simpl;
      (split; [split; [exact Hc|]|]); simpl;
      first [exact Hcurrent | discriminate | idtac].
    - intros _ k [= <-] i [= <-]. by apply Hi.
    - intros _. exists id, found. repeat split. by apply Hi. }
  destruct (isInitialized st && bool_decide (currentInstallationId st = Some id)
            && bool_decide (is_Some (currentServices st))) eqn:Hcond;
    [|exact Hfetch].
  apply andb_prop in Hcond as [Hcond Hsome].
  apply andb_prop in Hcond as [Hinit Hid].
  apply bool_decide_eq_true_1 in Hid.
  apply bool_decide_eq_true_1 in Hsome as [i Hi].
  simpl. split; [by split|]. intros _. exists id, i.
  repeat split; try done. by eapply Hcurrent.
Qed.

End Service.

Lemma reset_coherent : coherent (mkState ∅ None None false).
Proof. split; [intros id i; simpl; by rewrite lookup_empty|discriminate]. Qed.

Lemma processWebhook_coherent (ext : Externals) (st : State) (req : Request Payload) :
  coherent st -> coherent (processWebhook ext st req).1.2.
Proof.
  intros Hst. unfold processWebhook.
  destruct (currentServices st); [|done].
  destruct (parseWebhookEvent (body req)) as [e|]; [|done].
  destruct (is_event _ "ping"); [done|].
  destruct (is_event _ "installation" || is_event _ "installation_repositories").
  - simpl. unfold handleInstallationEvents.
    destruct (_ || _); [apply reset_coherent|done].
  - destruct (ev_repository e); [|done].
    by destruct (routeEventToHandler ext _ e _).
Qed.

(** X8. Requests are served with the service bundle of their own
    installation. Starting from a state in which every bundle is filed
    under its installation (as in the initial, empty state), the state
    stays so after a request, whatever the request; and when the middleware
    lets a request through, the request names an installation and the
    current bundle is that installation's. *)
Theorem requests_use_their_installation
    (config : GitHubConfiguration) (ext : Externals)
    (st : State) (req : Request Payload) :
  coherent st ->
  coherent initial_state
  /\ coherent (validateAndInitialize config ext st req).2
  /\ coherent (post_webhook config ext st req).1.2
  /\ ((validateAndInitialize config ext st req).1 = Next ->
      exists id i,
        installation_of req = Some id
        /\ currentServices (validateAndInitialize config ext st req).2 = Some i
        /\ installation i = id).
Proof.
  intros Hst.
  assert (Hmiddleware :
    coherent (validateAndInitialize config ext st req).2
    /\ ((validateAndInitialize config ext st req).1 = Next ->
        exists id i,
          installation_of req = Some id
          /\ currentServices (validateAndInitialize config ext st req).2 = Some i
          /\ installation i = id)).
  { unfold validateAndInitialize.
    destruct (validateConfiguration config); [|by split].
    destruct (_ && _); [by split|].
    pose proof (ensureInitialized_coherent config ext st req Hst) as [Hco Hok].
    destruct (ensureInitialized config ext st req) as [[[]|e] st1]; simpl in *;
      [|by split].
    destruct (App.verifySignature ext st1 req) as [[|]|e]; simpl; try by split.
    split; [exact Hco|]. intros _.
    destruct (Hok eq_refl) as (id & i & Hid & Hi & _ & _ & Hinst). by exists id, i. }
  destruct Hmiddleware as [Hco Hnext].
  split; [apply reset_coherent|]. split; [exact Hco|]. split; [|exact Hnext].
  unfold post_webhook.
  destruct (validateAndInitialize config ext st req) as [[r|] st1]; simpl in *;
    [exact Hco|].
  unfold handleWebhook.
  pose proof (processWebhook_coherent ext st1 req Hco) as Hproc.
  by destruct (processWebhook ext st1 req) as [[processed st2] calls].
Qed.

Lemma requests_use_their_installation_witness :
  exists i,
    currentServices
      (validateAndInitialize demo_config demo_externals initial_state
         (demo_request "pull_request" (Some 5) "opened")).2 = Some i
    /\ installation i = 5.
Proof.
  destruct (requests_use_their_installation demo_config demo_externals
              initial_state (demo_request "pull_request" (Some 5) "opened")
              reset_coherent) as (_ & _ & _ & Hnext).
  destruct (Hnext eq_refl) as (id & i & Hid & Hi & Hinst).
  exists i. split; [exact Hi|]. injection Hid as <-. exact Hinst.
Defined.

(** X9. A request whose body names no installation (or installation 0) is
    answered 400 by the middleware, for every event type, the ping and
    installation events that [requiresInstallationId] exempts included:
    for those [ensureInitialized] throws and the error's wording maps to
    400 as well. Nothing is initialised and no handler runs. *)
Theorem missing_installation_is_rejected
    (config : GitHubConfiguration) (ext : Externals)
    (st : State) (req : Request Payload) :
  validateConfiguration config = Ok tt ->
  installation_of req = None ->
  exists msg,
    includes msg "installation ID is required" = true
    /\ validateAndInitialize config ext st req
       = (Answered (mkResponse 400 false None (Some msg)), st)
    /\ post_webhook config ext st req
       = (mkResponse 400 false None (Some msg), st, []).
Proof.
  intros Hconfig Hid.
  assert (Hmiddleware : exists msg,
    includes msg "installation ID is required" = true
    /\ validateAndInitialize config ext st req
       = (Answered (mkResponse 400 false None (Some msg)), st)).
  { unfold validateAndInitialize, ensureInitialized.
    rewrite Hconfig, Hid. simpl.
    destruct (requiresInstallationId req); eexists; (split; [|reflexivity]);
      reflexivity. }
  destruct Hmiddleware as (msg & Hmsg & Hrun).
  exists msg. split; [exact Hmsg|]. split; [exact Hrun|].
  unfold post_webhook. by rewrite Hrun.
Qed.

Lemma missing_installation_is_rejected_witness :
  exists msg,
    post_webhook demo_config demo_externals initial_state
      (demo_request "ping" None "ping")
    = (mkResponse 400 false None (Some msg), initial_state, []).
Proof.
  destruct (missing_installation_is_rejected demo_config demo_externals
              initial_state (demo_request "ping" None "ping") eq_refl eq_refl)
    as (msg & _ & _ & Hpost).
  by exists msg.
Defined.

(** What [verifyWebhookSignature] answers, in one expression. *)
Lemma verifyWebhookSignature_answer
    (hmac : string -> string -> result string)
    (gh : GitHubService) (payload signature : string) :
  verifyWebhookSignature hmac gh payload signature
  = Ok match hmac (GitHubService.webhookSecret gh) payload with
       | Ok digest => String.eqb signature ("sha256=" ++ digest)
       | Throw _ => false
       end.
Proof.
  unfold verifyWebhookSignature, timingSafeEqual.
  destruct (hmac _ payload) as [digest|e]; simpl; [|reflexivity].
  destruct (Nat.eqb _ _) eqn:Hlen; simpl; [reflexivity|].
  destruct (String.eqb signature _) eqn:Heq; [|reflexivity].
  apply String.eqb_eq in Heq. subst signature.
  by rewrite Nat.eqb_refl in Hlen.
Qed.

(** X10. Once the configuration is valid and the services of the request's
    installation are initialised, the middleware lets the request through
    exactly when it carries no signature header (or an empty one) or the
    header equals [sha256=] followed by the digest of the serialised body
    under the webhook secret; every other request is answered 401 with
    "Invalid webhook signature". *)
Theorem signature_gate
    (config : GitHubConfiguration) (ext : Externals)
    (st st' : State) (req : Request Payload) (i : GitHubServiceInstances) :
  validateConfiguration config = Ok tt ->
  ensureInitialized config ext st req = (Ok tt, st') ->
  currentServices st' = Some i ->
  validateAndInitialize config ext st req
  = (if accepted ext i req then Next
     else Answered (mkResponse 401 false None (Some "Invalid webhook signature")),
     st').
Proof.
  intros Hconfig Hinit Hcurrent.
  unfold validateAndInitialize. rewrite Hconfig.
  assert (Hid : exists id, installation_of req = Some id).
  { unfold ensureInitialized in Hinit.
    destruct (installation_of req); [by eexists|discriminate]. }
  destruct Hid as [id Hid]. rewrite Hid, Hinit. simpl.
  unfold App.verifySignature, WebhookService.verifySignature, as_webhook_service,
    accepted.
  rewrite Hcurrent. simpl.
  destruct (headers req !! "x-hub-signature-256") as [signature|]; [|reflexivity].
  destruct (truthy signature); simpl; [|reflexivity].
  rewrite verifyWebhookSignature_answer.
  by destruct (hmac_sha256_hex ext _ _) as [digest|e];
    [destruct (String.eqb _ _)|].
Qed.

Lemma signature_gate_witness :
  let forged :=
    mkRequest Payload
      {[ "x-github-event" := "pull_request"; "x-hub-signature-256" := "sha256=ff" ]}
      (body (demo_request "pull_request" (Some 5) "opened")) in
  (validateAndInitialize demo_config demo_externals initial_state forged).1
  = Answered (mkResponse 401 false None (Some "Invalid webhook signature"))
  /\ (validateAndInitialize demo_config demo_externals initial_state
        (demo_request "pull_request" (Some 5) "opened")).1 = Next.
Proof.
  intros forged. split; [|reflexivity].
  pose proof (signature_gate demo_config demo_externals initial_state
                (ensureInitialized demo_config demo_externals initial_state forged).2
                forged
                (mkInstances 5 (mkGitHubService "secret" (Some "ai-code-reviewer")))
                eq_refl eq_refl eq_refl) as Hgate.
  by rewrite Hgate.
Defined.

(** X11. The factory's cache: once the bundle of an installation has been
    obtained, asking again gives the same bundle and leaves the cache as it
    is, whatever has become of the key file or the prompt files since; the
    bundles of other installations are neither added nor removed; a failed
    creation caches nothing; and [clearCache] forgets every installation. *)
Theorem cached_bundle_is_reused
    (config : GitHubConfiguration) (ext ext' : Externals)
    (cache : gmap string GitHubServiceInstances) (id : nat) :
  let run := getServiceInstances config ext cache id in
  (init_success run.1 = true ->
   getServiceInstances config ext' run.2 id = run
   /\ hasServiceInstances run.2 id = true)
  /\ (init_success run.1 = false -> run.2 = cache /\ instances run.1 = None)
  /\ (forall other, other <> id ->
        hasServiceInstances run.2 other = hasServiceInstances cache other)
  /\ hasServiceInstances (clearCache run.2) id = false.
Proof.
  unfold getServiceInstances, hasServiceInstances, clearCache.
  destruct (cache !! generateCacheKey id) as [cached|] eqn:Hlookup; simpl.
  - rewrite Hlookup. repeat split; try done; by apply bool_decide_eq_true_2.
  - destruct (createServiceInstances config ext id) as [created|e]; simpl.
    + rewrite lookup_insert_eq. split; [|split; [done|split; [|done]]].
      * intros _. split; [reflexivity|]. by apply bool_decide_eq_true_2.
      * intros other Hne. rewrite lookup_insert_ne; [done|].
        intros Heq. by apply generateCacheKey_inj in Heq.
    + repeat split; done.
Qed.

Lemma cached_bundle_is_reused_witness :
  let broken :=
    mkExternals (fun _ => Throw (Error "ENOENT")) (loadPrompts demo_externals)
      (stringify demo_externals) (hmac_sha256_hex demo_externals)
      (now demo_externals) (isBotMentioned demo_externals)
      (extractCommand demo_externals) (handleBotCommand demo_externals)
      (getPullRequest demo_externals) (getPullRequestFiles demo_externals)
      (reviewExecute demo_externals) (assistantExecute demo_externals)
      (createPRComment demo_externals) in
  let first := getServiceInstances demo_config demo_externals ∅ 5 in
  getServiceInstances demo_config broken first.2 5 = first
  /\ init_success (getServiceInstances demo_config broken ∅ 5).1 = false.
Proof.
  intros broken first. split; [|reflexivity].
  exact (proj1 (proj1 (cached_bundle_is_reused demo_config demo_externals broken ∅ 5)
                  eq_refl)).
Defined.

(** X12. When an installation or installation_repositories event reports
    the action deleted or suspend, the request is answered as processed and
    the application forgets everything: the cache is emptied and no bundle
    is current, so that the next request has to initialise anew
    ([verifySignature] would throw otherwise). Any other action of these
    events leaves the state as it is. No handler is called either way. *)
Theorem removed_installation_resets
    (ext : Externals) (st : State) (req : Request Payload)
    (services : GitHubServiceInstances) (name action : string) :
  currentServices st = Some services ->
  headers req !! "x-github-event" = Some name ->
  name = "installation" \/ name = "installation_repositories" ->
  body_action (body req) = Some action ->
  action <> "" ->
  processWebhook ext st req
  = (Ok (mkProcessingResult (name ++ " event processed successfully")
           (Some name) action (now ext)),
     if String.eqb action "deleted" || String.eqb action "suspend"
     then initial_state else st,
     [])
  /\ App.verifySignature ext initial_state req
     = Throw (Error "Services not initialized")
  /\ forall id, hasServiceInstances (serviceInstances initial_state) id = false.
Proof.
  intros Hcurrent Hheader Hname Haction Hne.
  split; [|split; [reflexivity|done]].
  unfold processWebhook, parseWebhookEvent, handleInstallationEvents.
  rewrite Hcurrent, Hheader, Haction.
  assert (Htruthy : truthy action = true) by (by destruct action).
  rewrite Htruthy.
  destruct Hname as [-> | ->]; simpl; by destruct (_ || _).
Qed.

Lemma removed_installation_resets_witness :
  let st := mkState ∅ (Some (mkInstances 5 (mkGitHubService "s" None))) (Some 5) true in
  (processWebhook demo_externals st (demo_request "installation" (Some 5) "deleted")).1.2
  = initial_state.
Proof.
  intros st.
  pose proof (removed_installation_resets demo_externals st
                (demo_request "installation" (Some 5) "deleted")
                (mkInstances 5 (mkGitHubService "s" None)) "installation" "deleted"
                eq_refl eq_refl (or_introl eq_refl) eq_refl) as [Hrun _];
    [discriminate|].
  by rewrite Hrun.
Defined.

(** X13. An event other than ping and the installation events whose body
    has no repository is answered 400 with "Webhook event missing
    repository information", whatever its type; no handler is called and
    the state is left as it is. A ping is answered 200 with the pong
    message even without a repository. *)
Theorem missing_repository_is_rejected
    (ext : Externals) (st : State) (req : Request Payload)
    (services : GitHubServiceInstances) :
  currentServices st = Some services ->
  body_repository (body req) = None ->
  let eventType := headers req !! "x-github-event" in
  (is_event eventType "ping" = true ->
   handleWebhook ext st req = (sendSuccessResponse (handlePingEvent ext), st, []))
  /\ (is_event eventType "ping" = false ->
      is_event eventType "installation" = false ->
      is_event eventType "installation_repositories" = false ->
      handleWebhook ext st req
      = (mkResponse 400 false None
           (Some "Webhook event missing repository information"),
         st, [])).
Proof.
  intros Hcurrent Hrepo eventType. subst eventType.
  unfold handleWebhook, processWebhook, parseWebhookEvent.
  rewrite Hcurrent. split.
  - by intros ->.
  - intros -> -> ->. simpl. by rewrite Hrepo.
Qed.

Lemma missing_repository_is_rejected_witness :
  let st := mkState ∅ (Some (mkInstances 5 (mkGitHubService "s" None))) (Some 5) true in
  let req :=
    mkRequest Payload {[ "x-github-event" := "push" ]}
      (mkPayload (Some 5) None None None None None None) in
  handleWebhook demo_externals st req
  = (mkResponse 400 false None
       (Some "Webhook event missing repository information"), st, []).
Proof.
  intros st req.
  exact (proj2 (missing_repository_is_rejected demo_externals st req
                  (mkInstances 5 (mkGitHubService "s" None)) eq_refl eq_refl)
           eq_refl eq_refl eq_refl).
Defined.

Section PullRequests.
Variable ext : Externals.
Variable st : State.
Variable req : Request Payload.
Variable services : GitHubServiceInstances.
Variable pr : PullRequest.
Variable repository : Repository.
Variable action : string.
Hypothesis Hcurrent : currentServices st = Some services.
Hypothesis Hheader : headers req !! "x-github-event" = Some "pull_request".
Hypothesis Hpr : body_pull_request (body req) = Some pr.
Hypothesis Hrepo : body_repository (body req) = Some repository.
Hypothesis Haction : body_action (body req) = Some action.

Lemma pull_request_dispatch :
  action <> "" ->
  handleWebhook ext st req
  = let '(handled, calls) :=
      handlePullRequestEvent ext
        (mkParsedEvent action
           (match body_number (body req) with
            | Some (S n) => Some (S n)
            | _ =>
                match Some (pr_number pr) with
                | Some (S n) => Some (S n)
                | _ => issue_number <$> body_issue (body req)
                end
            end)
           (Some pr) (body_issue (body req)) (body_comment (body req))
           (Some repository)) in
    (match handled with
     | Ok _ =>
         sendSuccessResponse
           (mkProcessingResult "Webhook processed successfully"
              (Some "pull_request") action (now ext))
     | Throw e => sendErrorResponse e None
     end, st, calls).
Proof.
  intros Hne. assert (Htruthy : truthy action = true) by (by destruct action).
  unfold handleWebhook, processWebhook, parseWebhookEvent, routeEventToHandler.
  rewrite Hcurrent, Hheader, Hpr, Hrepo, Haction, Htruthy. simpl.
  destruct (handlePullRequestEvent ext _) as [[[]|e] calls]; reflexivity.
Qed.

End PullRequests.

(** X14. A pull request that is opened, reopened or marked ready for
    review starts the review, and nothing the review does can fail the
    request: the webhook is answered 200 whether fetching the pull request,
    the review workflow or posting the comment throws or not. The pull
    request is fetched first; for a draft nothing else happens; otherwise
    the review workflow runs and at most one comment is posted, none when
    the workflow throws or returns no message or an empty one. *)
Theorem review_never_fails_the_request
    (ext : Externals) (st : State) (req : Request Payload)
    (services : GitHubServiceInstances) (pr : PullRequest)
    (repository : Repository) (action : string) :
  currentServices st = Some services ->
  headers req !! "x-github-event" = Some "pull_request" ->
  body_pull_request (body req) = Some pr ->
  body_repository (body req) = Some repository ->
  body_action (body req) = Some action ->
  action = "opened" \/ action = "reopened" \/ action = "ready_for_review" ->
  let owner := login (owner repository) in
  let repo := repo_name repository in
  let n := pr_number pr in
  exists calls,
    handleWebhook ext st req
    = (sendSuccessResponse
         (mkProcessingResult "Webhook processed successfully"
            (Some "pull_request") action (now ext)),
       st, GetPullRequest owner repo n :: calls)
    /\ (getPullRequest ext owner repo n <> Ok false -> calls = [])
    /\ (getPullRequest ext owner repo n = Ok false ->
        exists comments,
          calls = ExecuteReview owner repo n :: comments
          /\ length comments <= 1
          /\ (comments <> [] ->
              exists m body,
                reviewExecute ext owner repo n = Ok (Some m)
                /\ comments = [Mention (CreatePRComment owner repo n body)]
                /\ (content m = Text body /\ body <> ""
                    \/ content m = Structured body))).
Proof.
  intros Hcurrent Hheader Hpr Hrepo Haction Hcase owner repo n.
  rewrite (pull_request_dispatch ext st req services pr repository action)
    by (try done; by destruct Hcase as [-> | [-> | ->]]).
  unfold handlePullRequestEvent. simpl.
  assert (Hreview :
    (if String.eqb action "opened" || String.eqb action "ready_for_review"
     then (Ok tt, handlePRReview ext owner repo n)
     else if String.eqb action "synchronize"
     then (Ok tt, handlePRUpdate ext owner repo n)
     else if String.eqb action "reopened"
     then (Ok tt, handlePRReview ext owner repo n)
     else if String.eqb action "closed"
     then handlePRClosed ext owner repo n (merged pr)
     else (Ok tt, []))
    = (Ok tt, handlePRReview ext owner repo n)).
  { by destruct Hcase as [-> | [-> | ->]]. }
  fold owner repo n. rewrite Hreview. unfold handlePRReview.
  eexists. split; [reflexivity|]. split.
  - intros Hdraft. by destruct (getPullRequest ext owner repo n) as [ [ | ] | e ].
  - intros ->. eexists. split; [reflexivity|].
    destruct (reviewExecute ext owner repo n) as [[m|]|e]; simpl;
      try (split; [lia|done]).
    unfold comment_for. destruct (content m) as [s|json] eqn:Hcontent; simpl.
    + destruct (truthy s) eqn:Hs; simpl; [|split; [lia|done]].
      split; [lia|]. intros _. exists m, s. repeat split.
      left. split; [exact Hcontent|]. by destruct s.
    + split; [lia|]. intros _. exists m, json. repeat split. by right.
Qed.

Lemma review_never_fails_the_request_witness :
  let failing :=
    mkExternals (readFileSync demo_externals) (loadPrompts demo_externals)
      (stringify demo_externals) (hmac_sha256_hex demo_externals)
      (now demo_externals) (isBotMentioned demo_externals)
      (extractCommand demo_externals) (handleBotCommand demo_externals)
      (getPullRequest demo_externals) (getPullRequestFiles demo_externals)
      (fun _ _ _ => Throw GraphRecursionError) (assistantExecute demo_externals)
      (createPRComment demo_externals) in
  let st := mkState ∅ (Some (mkInstances 5 (mkGitHubService "s" None))) (Some 5) true in
  handleWebhook failing st (demo_request "pull_request" (Some 5) "opened")
  = (sendSuccessResponse
       (mkProcessingResult "Webhook processed successfully"
          (Some "pull_request") "opened" "now"),
     st, [GetPullRequest "o" "r" 7; ExecuteReview "o" "r" 7]).
Proof.
  intros failing st.
  destruct (review_never_fails_the_request failing st
              (demo_request "pull_request" (Some 5) "opened")
              (mkInstances 5 (mkGitHubService "s" None))
              (mkPullRequest 7 "title" true) (mkRepository "r" (mkUser "o"))
              "opened" eq_refl eq_refl eq_refl eq_refl eq_refl (or_introl eq_refl))
    as (calls & Hrun & _ & Hcalls).
  destruct (Hcalls eq_refl) as (comments & -> & _ & Hcomments).
  destruct comments as [|c comments]; [exact Hrun|].
  destruct (Hcomments ltac:(discriminate)) as (m & body & Hreview & _).
  discriminate Hreview.
Defined.

(** X15. A closed pull request gets the thank-you comment exactly when it
    was merged, and this is the one handler whose failure reaches the
    caller: when posting the comment throws, the webhook is answered with
    that error (status 500 unless the error's wording maps to another),
    not 200. An unmerged pull request that is closed triggers nothing. *)
Theorem closed_pull_request
    (ext : Externals) (st : State) (req : Request Payload)
    (services : GitHubServiceInstances) (pr : PullRequest)
    (repository : Repository) :
  currentServices st = Some services ->
  headers req !! "x-github-event" = Some "pull_request" ->
  body_pull_request (body req) = Some pr ->
  body_repository (body req) = Some repository ->
  body_action (body req) = Some "closed" ->
  let owner := login (owner repository) in
  let repo := repo_name repository in
  let n := pr_number pr in
  let ok :=
    sendSuccessResponse
      (mkProcessingResult "Webhook processed successfully"
         (Some "pull_request") "closed" (now ext)) in
  handleWebhook ext st req
  = if merged pr then
      (match createPRComment ext owner repo n merged_message with
       | Ok _ => ok
       | Throw e =>
           mkResponse (error_status (message_of e) None) false None
             (Some (message_of e))
       end,
       st, [Mention (CreatePRComment owner repo n merged_message)])
    else (ok, st, []).
Proof.
  intros Hcurrent Hheader Hpr Hrepo Haction owner repo n ok.
  rewrite (pull_request_dispatch ext st req services pr repository "closed")
    by done.
  unfold handlePullRequestEvent, handlePRClosed. simpl. fold owner repo n.
  destruct (merged pr); [|reflexivity].
  by destruct (createPRComment ext owner repo n merged_message) as [[]|e].
Qed.

Lemma closed_pull_request_witness :
  let failing :=
    mkExternals (readFileSync demo_externals) (loadPrompts demo_externals)
      (stringify demo_externals) (hmac_sha256_hex demo_externals)
      (now demo_externals) (isBotMentioned demo_externals)
      (extractCommand demo_externals) (handleBotCommand demo_externals)
      (getPullRequest demo_externals) (getPullRequestFiles demo_externals)
      (reviewExecute demo_externals) (assistantExecute demo_externals)
      (fun _ _ _ _ => Throw (Error "Failed to create PR comment: HttpError")) in
  let st := mkState ∅ (Some (mkInstances 5 (mkGitHubService "s" None))) (Some 5) true in
  (handleWebhook failing st (demo_request "pull_request" (Some 5) "closed")).1.1
  = mkResponse 500 false None (Some "Failed to create PR comment: HttpError").
Proof.
  intros failing st.
  by rewrite (closed_pull_request failing st
                (demo_request "pull_request" (Some 5) "closed")
                (mkInstances 5 (mkGitHubService "s" None))
                (mkPullRequest 7 "title" true) (mkRepository "r" (mkUser "o"))
                eq_refl eq_refl eq_refl eq_refl eq_refl).
Defined.

(** X16. A comment written by a login that [isCommentFromBot] takes for a
    bot triggers nothing, on a pull request's conversation as in a review:
    for issue_comment and pull_request_review_comment events alike the
    webhook is answered 200 and no workflow is run and no comment posted,
    whatever the comment says. *)
Theorem bot_comments_trigger_nothing
    (ext : Externals) (st : State) (req : Request Payload)
    (services : GitHubServiceInstances) (c : PostedComment)
    (repository : Repository) (eventType : string) :
  currentServices st = Some services ->
  headers req !! "x-github-event" = Some eventType ->
  eventType = "issue_comment" \/ eventType = "pull_request_review_comment" ->
  body_comment (body req) = Some c ->
  body_repository (body req) = Some repository ->
  isCommentFromBot (githubService services) (login (user (posted c))) = true ->
  exists action,
    handleWebhook ext st req
    = (sendSuccessResponse
         (mkProcessingResult "Webhook processed successfully"
            (Some eventType) action (now ext)),
       st, []).
Proof.
  intros Hcurrent Hheader Htype Hcomment Hrepo Hbot.
  unfold handleWebhook, processWebhook, parseWebhookEvent, routeEventToHandler.
  rewrite Hcurrent, Hheader, Hcomment, Hrepo.
  destruct Htype as [-> | ->]; simpl.
  - unfold handleIssueCommentEvent, as_webhook_event. simpl.
    destruct (body_issue (body req)) as [i|]; simpl; [|by eexists].
    destruct (pull_request i); simpl; [|by eexists].
    rewrite Hbot. by eexists.
  - unfold handleReviewCommentEvent. simpl. rewrite Hbot. by eexists.
Qed.

Lemma bot_comments_trigger_nothing_witness :
  let st := mkState ∅ (Some (mkInstances 5 (mkGitHubService "s" None))) (Some 5) true in
  let req :=
    mkRequest Payload {[ "x-github-event" := "pull_request_review_comment" ]}
      (mkPayload (Some 5) (Some "created") None None None
         (Some (mkPostedComment (mkComment (mkUser "abbott") "@ai-reviewer hi") 7))
         (Some (mkRepository "r" (mkUser "o")))) in
  exists action,
    handleWebhook demo_externals st req
    = (sendSuccessResponse
         (mkProcessingResult "Webhook processed successfully"
            (Some "pull_request_review_comment") action "now"),
       st, []).
Proof.
  intros st req.
  exact (bot_comments_trigger_nothing demo_externals st req
           (mkInstances 5 (mkGitHubService "s" None))
           (mkPostedComment (mkComment (mkUser "abbott") "@ai-reviewer hi") 7)
           (mkRepository "r" (mkUser "o")) "pull_request_review_comment"
           eq_refl eq_refl (or_intror eq_refl) eq_refl eq_refl eq_refl).
Defined.

(** * Properties of the concrete workflows *)

Lemma append_nil_r (s : string) : s ++ "" = s.
Proof.
  induction s as [|c s IH]; [done|].
  change (String c (s ++ "") = String c s). by rewrite IH.
Qed.

Lemma append_assoc (a b c : string) : (a ++ b) ++ c = a ++ b ++ c.
Proof.
  induction a as [|x a IH]; [done|].
  change (String x ((a ++ b) ++ c) = String x (a ++ b ++ c)). by rewrite IH.
Qed.

(** X17. Whatever the context, the initial message of the interactive
    assistant names the pull request by the very text that is the run's
    thread identifier, owner/repo#number; and for a mention, a question or a
    comment it carries the user's query verbatim between double quotes
    (the word undefined when there is none). *)
Theorem initial_message_names_the_pull_request
    (owner repo : string) (prNumber : nat)
    (context : option Interactive.InteractiveContext) :
  includes (Interactive.createInitialMessage owner repo prNumber context)
    (thread_id owner repo prNumber) = true
  /\ (forall c,
        context = Some c -> Interactive.ctx_type c <> Interactive.push ->
        includes (Interactive.createInitialMessage owner repo prNumber context)
          (Interactive.quote
           ++ default "undefined" (Interactive.userQuery c)
           ++ Interactive.quote) = true).
Proof.
  split.
  - apply includes_spec. unfold Interactive.createInitialMessage, thread_id.
    destruct context as [c|].
    + destruct (Interactive.ctx_type c); by eexists _, _.
    + exists "Provide general assistance for ", "". by rewrite append_nil_r.
  - intros c -> Hpush. apply includes_spec.
    unfold Interactive.createInitialMessage, Interactive.interpolate.
    set (base := owner ++ "/" ++ repo ++ "#" ++ pretty prNumber).
    set (q := Interactive.quote ++ default "undefined" (Interactive.userQuery c)
              ++ Interactive.quote).
    destruct (Interactive.ctx_type c); try done.
    + exists ("User commented on " ++ base ++ ": "), " - provide helpful response".
      subst q. by rewrite !append_assoc.
    + eexists ("User question about " ++ base ++ ": "), _.
      subst q. rewrite !append_assoc. reflexivity.
    + eexists ("User question about " ++ base ++ ": "), _.
      subst q. rewrite !append_assoc. reflexivity.
Qed.

Example mention_message :
  Interactive.createInitialMessage "o" "r" 7
    (Some (Interactive.mkContext Interactive.mention (Some "explain this") None
             (Some "a.ts") (Some 3) (Some "alice")))
  = "User question about o/r#7: " ++ Interactive.quote ++ "explain this"
    ++ Interactive.quote ++ " regarding file: a.ts at line 3".
Proof. reflexivity. Qed.

(** X18. In both workflows of the application, the review and the
    assistant, every destination the oracle may legally name other than the
    terminal marker is the name of an agent node, and that node hands back to
    the supervisor: a legal decision is never dropped or left hanging. The
    graphs are accepted by the engine, every agent node is a member, and a run
    takes at most 80 node executions in the review and 50 in the assistant.
    This holds whatever prompt texts the workflows are loaded with. *)
Theorem concrete_workflows_route_every_member :
  (forall p f, let wf := InitialCodeReviewService p f in
     valid_graph wf = true /\ agents_are_members wf /\ ceiling (config wf) = 80
     /\ forall d, legal (config wf) d = true -> d <> END ->
          exists a, route wf d = Ok (Some (RunAgent a)) /\ agent_name a = d
                    /\ after_agent wf a = Some RunSupervisor)
  /\ (forall p, let wf := Interactive.assistant p in
      valid_graph wf = true /\ agents_are_members wf /\ ceiling (config wf) = 50
      /\ forall d, legal (config wf) d = true -> d <> END ->
           exists a, route wf d = Ok (Some (RunAgent a)) /\ agent_name a = d
                     /\ after_agent wf a = Some RunSupervisor)
  /\ (forall p env this owner repo n context,
        steps (loop_of (invoke (Interactive.assistant p) env (checkpointer this)
                          (initialState (Interactive.assistant p) owner repo n
                             context)
                          (ceiling (config (Interactive.assistant p)))
                          (thread_id owner repo n)).1) <= 50).
Proof.
  split; [|split].
  - intros p f wf.
    destruct (proj1 concrete_workflows_agents_are_members p f) as [Hmembers Hvalid].
    repeat split; try done.
    intros d Hlegal Hend. apply bool_decide_eq_true_1 in Hlegal.
    unfold options in Hlegal.
    apply elem_of_cons in Hlegal as [?|Hlegal]; [done|].
    simpl in Hlegal.
    repeat (apply elem_of_cons in Hlegal as [->|Hlegal];
            [eexists; repeat split; reflexivity|]).
    by apply elem_of_nil in Hlegal.
  - intros p wf.
    destruct (proj2 concrete_workflows_agents_are_members _ p
                Interactive.createInitialMessage) as [Hmembers Hvalid].
    repeat split; try done.
    intros d Hlegal Hend. apply bool_decide_eq_true_1 in Hlegal.
    unfold options in Hlegal.
    apply elem_of_cons in Hlegal as [?|Hlegal]; [done|].
    simpl in Hlegal.
    repeat (apply elem_of_cons in Hlegal as [->|Hlegal];
            [eexists; repeat split; reflexivity|]).
    by apply elem_of_nil in Hlegal.
  - intros p env this owner repo n context. unfold invoke. cbn [fst].
    pose proof (run_loop_counts (Interactive.assistant p) env 50
                  (mkLoop
                     (apply_update
                        (default default_state
                           (checkpointer this !! thread_id owner repo n))
                        (Some (initialState (Interactive.assistant p) owner repo n
                                 context)))
                     0 0 (Some RunSupervisor))) as Hcount.
    destruct Hcount as [[_ Hsteps] _]. exact Hsteps.
Qed.

(** * Properties of the prompt loader *)

Import PromptLoader.

Lemma append_cons (c : ascii) (r s : string) : String c r ++ s = String c (r ++ s).
Proof. reflexivity. Qed.

Lemma length_append (a b : string) :
  String.length (a ++ b) = String.length a + String.length b.
Proof.
  induction a as [|c a IH]; [done|].
  rewrite append_cons. simpl. by rewrite IH.
Qed.

Lemma drop_append (a b : string) : drop (String.length a) (a ++ b) = b.
Proof.
  induction a as [|c a IH]; [by destruct b|].
  rewrite append_cons. simpl. exact IH.
Qed.

Lemma drop_split (n : nat) (s : string) :
  n <= String.length s ->
  exists a, s = a ++ drop n s /\ String.length a = n.
Proof.
  revert s. induction n as [|n IH]; intros s Hn.
  - exists "". split; [by destruct s|done].
  - destruct s as [|c s]; simpl in Hn; [lia|].
    destruct (IH s) as (a & Hs & Hlen); [lia|].
    exists (String c a). rewrite append_cons. simpl. by rewrite <- Hs, Hlen.
Qed.

(** [endsWith] is the suffix test. *)
Lemma endsWith_spec (s suffix : string) :
  endsWith s suffix = true <-> exists a, s = a ++ suffix.
Proof.
  unfold endsWith. split.
  - intros [Hlen Heq]%andb_prop. apply Nat.leb_le in Hlen.
    apply String.eqb_eq in Heq.
    destruct (drop_split (String.length s - String.length suffix) s) as (a & Hs & _);
      [lia|].
    exists a. by rewrite <- Heq.
  - intros [a ->]. rewrite length_append. apply andb_true_intro. split.
    + apply Nat.leb_le. lia.
    + replace (String.length a + String.length suffix - String.length suffix)
        with (String.length a) by lia.
      rewrite drop_append. apply String.eqb_refl.
Qed.

Lemma append_nil_l (s : string) : "" ++ s = s.
Proof. reflexivity. Qed.

Lemma prefix_cons (a c : ascii) (p s : string) :
  String.prefix (String a p) (String c s) = Ascii.eqb a c && String.prefix p s.
Proof.
  change (String.prefix (String a p) (String c s))
    with (if ascii_dec a c then String.prefix p s else false).
  destruct (ascii_dec a c) as [->|Hne].
  - by rewrite Ascii.eqb_refl.
  - apply Ascii.eqb_neq in Hne. by rewrite Hne.
Qed.

Lemma prefix_nil (s : string) : String.prefix "" s = true.
Proof. by destruct s. Qed.

(** No occurrence of [.md] starts inside a stem that has none. *)
Lemma prefix_md_append (c : ascii) (r : string) :
  String.prefix ".md" (String c r) = false ->
  String.prefix ".md" (String c (r ++ ".md")) = false.
Proof.
  destruct r as [|x [|y r]];
    rewrite ?append_cons, ?append_nil_l, !prefix_cons, ?prefix_nil.
  - intros _. change (Ascii.eqb "m" ".") with false. apply andb_false_r.
  - intros _. change (Ascii.eqb "d" ".") with false.
    by rewrite !andb_false_r.
  - destruct (Ascii.eqb "." c), (Ascii.eqb "m" x), (Ascii.eqb "d" y);
      cbn [andb]; done.
Qed.

Lemma remove_first_suffix (stem : string) :
  includes stem ".md" = false -> remove_first ".md" (stem ++ ".md") = stem.
Proof.
  induction stem as [|c r IH]; [done|].
  rewrite includes_cons.
  destruct (String.prefix ".md" (String c r)) eqn:Hprefix; [discriminate|].
  intros Hr. rewrite append_cons.
  change (remove_first ".md" (String c (r ++ ".md")))
    with (if String.prefix ".md" (String c (r ++ ".md"))
          then drop 3 (String c (r ++ ".md"))
          else String c (remove_first ".md" (r ++ ".md"))).
  rewrite (prefix_md_append c r Hprefix). by rewrite IH.
Qed.

Lemma dashes_to_underscores_no_dash (s : string) :
  includes (dashes_to_underscores s) "-" = false.
Proof.
  induction s as [|c s IH]; [done|].
  change (dashes_to_underscores (String c s))
    with (String (if Ascii.eqb c "-" then "_"%char else c) (dashes_to_underscores s)).
  rewrite includes_cons, IH, prefix_cons, prefix_nil, andb_true_r.
  destruct (Ascii.eqb c "-") eqn:Hc; [reflexivity|].
  by rewrite Ascii.eqb_sym, Hc.
Qed.

(** X19. Which prompt files are agent prompts, and under which name. A
    file is loaded as an agent prompt exactly when its name ends in [.md]
    and is not workflow.md. The name it is filed under never contains a
    dash; for a file name stem.md whose stem has no [.md] inside, it is the
    stem with every dash turned into an underscore, so security-agent.md
    goes under security_agent, the name the agent configurations read. *)
Theorem agent_name_of_prompt_file (file stem : string) :
  (isAgentFile file = true
   <-> (exists a, file = a ++ ".md") /\ file <> "workflow.md")
  /\ includes (agentNameOfFile file) "-" = false
  /\ (includes stem ".md" = false ->
      agentNameOfFile (stem ++ ".md") = dashes_to_underscores stem)
  /\ agentNameOfFile "security-agent.md" = "security_agent".
Proof.
  split; [|split; [apply dashes_to_underscores_no_dash|split; [|reflexivity]]].
  - unfold isAgentFile. rewrite andb_true_iff, endsWith_spec, negb_true_iff.
    by rewrite String.eqb_neq.
  - intros Hstem. unfold agentNameOfFile. by rewrite remove_first_suffix.
Qed.

(** Only the first [.md] is removed, wherever it is. *)
Example agent_name_inner_md : agentNameOfFile "notes.md-old.md" = "notes_old.md".
Proof. reflexivity. Qed.

Section Loading.
Variable path_join : string -> string -> string.
Variable trim : string -> string.
Variable PROMPTS_DIR : string.

Lemma assign_keys (key text : string) (acc : gmap string string) (k : string) :
  is_Some (assign key text acc !! k)
  <-> is_Some (acc !! k) \/ (key = k /\ k <> "__proto__").
Proof.
  unfold assign. destruct (String.eqb key "__proto__") eqn:Hproto.
  - apply String.eqb_eq in Hproto. split; [by left|].
    intros [Hacc|[<- Hne]]; [done|]. by destruct Hne.
  - apply String.eqb_neq in Hproto.
    destruct (String.eqb key k) eqn:Heq.
    + apply String.eqb_eq in Heq. subst k. rewrite lookup_insert_eq.
      split; [by right|by eexists].
    + apply String.eqb_neq in Heq. rewrite lookup_insert_ne by done.
      split; [by left|]. intros [Hacc|[Hk _]]; [done|by destruct Heq].
Qed.

Lemma load_files_keys (fs : FileSystem) (dir : string) (files : list string)
    (acc prompts : gmap string string) :
  load_files path_join trim fs dir files acc = Ok prompts ->
  forall k, is_Some (prompts !! k)
            <-> is_Some (acc !! k)
                \/ (k <> "__proto__" /\ exists f, f ∈ files /\ agentNameOfFile f = k).
Proof.
  revert acc. induction files as [|f files IH]; intros acc; simpl.
  - intros [= <-] k. split; [by left|].
    intros [H|(_ & f & Hf & _)]; [done|by apply elem_of_nil in Hf].
  - destruct (loadMarkdownFile trim fs (path_join dir f)) as [text|e]; simpl;
      [|discriminate].
    intros Hload k. rewrite (IH _ Hload k), assign_keys. split.
    + intros [[Hacc|[Hk Hne]]|(Hne & g & Hg & Hk)].
      * by left.
      * right. split; [done|]. exists f. split; [|done]. apply elem_of_cons. by left.
      * right. split; [done|]. exists g. split; [|done]. apply elem_of_cons. by right.
    + intros [Hacc|(Hne & g & Hg & Hk)].
      * left. by left.
      * apply elem_of_cons in Hg as [->|Hg].
        -- left. by right.
        -- right. split; [done|]. by exists g.
Qed.

(** X20. Loading the agent prompts of a workflow. A load that fails
    throws "Could not load agent prompts: <workflow>" and caches nothing. A
    load that succeeds is cached: loading again gives the same prompts
    without consulting the file system, whatever the files have become.
    When read from the directory, the prompts have one entry for each name
    of an agent file in it: a name has a prompt exactly when some agent file
    of the listing is filed under it, the name [__proto__] apart, which
    never gets an entry. *)
Theorem agent_prompts_are_cached (fs fs' : FileSystem)
    (cache : gmap string (gmap string string)) (workflowName : string) :
  let run := loadAgentPrompts path_join trim PROMPTS_DIR fs cache workflowName in
  (forall e, run.1 = Throw e ->
     e = Error ("Could not load agent prompts: " ++ workflowName) /\ run.2 = cache)
  /\ (forall prompts, run.1 = Ok prompts ->
        loadAgentPrompts path_join trim PROMPTS_DIR fs' run.2 workflowName
        = (Ok prompts, run.2))
  /\ (forall prompts, run.1 = Ok prompts ->
        cache !! ("agents-" ++ workflowName) = None ->
        exists files,
          readdirSync fs (path_join PROMPTS_DIR workflowName) = Ok files
          /\ forall k, is_Some (prompts !! k)
                       <-> k <> "__proto__"
                           /\ exists f, f ∈ files /\ isAgentFile f = true
                                         /\ agentNameOfFile f = k).
Proof.
  unfold loadAgentPrompts.
  destruct (cache !! ("agents-" ++ workflowName)) as [cached|] eqn:Hcached; simpl.
  - split; [discriminate|]. split; [|discriminate].
    intros prompts [= <-]. by rewrite Hcached.
  - destruct (readdirSync fs (path_join PROMPTS_DIR workflowName)) as [files|e0];
      simpl.
    + destruct (load_files path_join trim fs (path_join PROMPTS_DIR workflowName)
                  (List.filter isAgentFile files) ∅) as [loaded|e1] eqn:Hload; simpl.
      * split; [discriminate|]. split.
        -- intros prompts [= <-]. by rewrite lookup_insert_eq.
        -- intros prompts [= <-] _. exists files. split; [reflexivity|].
           intros k. rewrite (load_files_keys _ _ _ _ _ Hload k). split.
           ++ intros [Hempty|(Hne & f & Hf & Hk)].
              ** rewrite lookup_empty in Hempty. by destruct Hempty.
              ** apply list_elem_of_In, filter_In in Hf as [Hf Hagent].
                 split; [done|]. exists f. split; [by apply list_elem_of_In|done].
           ++ intros (Hne & f & Hf & Hagent & Hk). right. split; [done|].
              exists f. split; [|done].
              apply list_elem_of_In, filter_In. split; [by apply list_elem_of_In|done].
      * split; [by intros e [= <-]|]. split; discriminate.
    + split; [by intros e [= <-]|]. split; discriminate.
Qed.

End Loading.
